(** * CapEdge client: response mapper and transcript extractor

    A shallow embedding of [capedge_client/__init__.py] (the cookie parser,
    the request layer and the JSON-to-record mappers) and of the transcript
    extraction loop of [examples/fetch_recent_transcripts.py] and
    [examples/fetch_transcript.py], followed by the properties the
    specification states about them.

    Python values, dictionaries and exceptions are modelled explicitly;
    the HTTP transport, the JSON decoder, the HTML parser and the builtins
    [int] and [html.unescape] are library code and enter as section
    variables. *)

From Equations Require Import Equations.
From stdpp Require Import gmap strings list fin_maps.
From Stdlib Require Import ZArith QArith_base String Ascii.

Set Warnings "-register-all".
Set Default Proof Using "Type".
Close Scope Q_scope.
Open Scope string_scope.

(** ** Python strings *)

(** A [string] holds the UTF-8 encoding of a Python [str].  The texts
    searched for below ([=], [; ], [&], the HTML markers) are ASCII, and
    an ASCII text occurs in the encoding exactly where it occurs in the
    [str]. *)
Module PyStr.

(** [s.startswith(pre)] *)
Definition startswith (s pre : string) : bool := String.prefix pre s.

(** [s[n:]] for [0 <= n] *)
Fixpoint drop (n : nat) (s : string) : string :=
  match n, s with
  | O, _ => s
  | S _, EmptyString => EmptyString
  | S n', String _ s' => drop n' s'
  end.

(** [s.partition(sub)] when [sub] occurs in [s]: the text before and the
    text after the leftmost occurrence. *)
Fixpoint find (sub s : string) : option (string * string) :=
  if String.prefix sub s then Some (EmptyString, drop (String.length sub) s)
  else match s with
       | EmptyString => None
       | String c s' =>
           match find sub s' with
           | Some (a, b) => Some (String c a, b)
           | None => None
           end
       end.

(** [sub in s] *)
Fixpoint contains (sub s : string) : bool :=
  String.prefix sub s
  || match s with
     | EmptyString => false
     | String _ s' => contains sub s'
     end.

(** [s.split(sep, 1)]: at most one split, at the leftmost separator. *)
Definition split1 (sep s : string) : list string :=
  match find sep s with
  | Some (a, b) => [a; b]
  | None => [s]
  end.

Definition cons_head (c : ascii) (l : list string) : list string :=
  match l with
  | [] => [String c EmptyString]
  | hd :: tl => String c hd :: tl
  end.

(** The scan behind [s.split(sep)]: [skip] counts the characters of a
    separator just matched that are still to be stepped over. *)
Fixpoint split_go (sep : string) (skip : nat) (s : string) : list string :=
  match s with
  | EmptyString => [EmptyString]
  | String c s' =>
      match skip with
      | S k => split_go sep k s'
      | O =>
          if String.prefix sep s
          then EmptyString :: split_go sep (String.length sep - 1) s'
          else cons_head c (split_go sep 0 s')
      end
  end.

(** [s.split(sep)] for a non-empty [sep]: leftmost, non-overlapping
    separators; an empty string yields one empty field. *)
Definition split (sep s : string) : list string := split_go sep 0 s.

(** [sep.join(l)] *)
Fixpoint join (sep : string) (l : list string) : string :=
  match l with
  | [] => EmptyString
  | [x] => x
  | x :: tl => x +:+ sep +:+ join sep tl
  end.

(** [s.endswith(suf)] *)
Fixpoint endswith (s suf : string) : bool :=
  String.eqb s suf
  || match s with
     | EmptyString => false
     | String _ s' => endswith s' suf
     end.

(** [s.replace(old, new)] for a non-empty [old]: the leftmost,
    non-overlapping occurrences of [old] are the separators of
    [s.split(old)], and each is replaced by [new]. *)
Definition replace (old new s : string) : string := join new (split old s).

(** The UTF-8 encoding of a code point, and of a sequence of them. *)
Definition utf8 (cp : N) : string :=
  let byte (n : N) : ascii := ascii_of_N n in
  if (cp <? 0x80)%N then String (byte cp) EmptyString
  else if (cp <? 0x800)%N then
    String (byte (0xC0 + cp / 64)%N) (String (byte (0x80 + cp mod 64)%N) EmptyString)
  else if (cp <? 0x10000)%N then
    String (byte (0xE0 + cp / 4096)%N)
      (String (byte (0x80 + (cp / 64) mod 64)%N)
         (String (byte (0x80 + cp mod 64)%N) EmptyString))
  else
    String (byte (0xF0 + cp / 262144)%N)
      (String (byte (0x80 + (cp / 4096) mod 64)%N)
         (String (byte (0x80 + (cp / 64) mod 64)%N)
            (String (byte (0x80 + cp mod 64)%N) EmptyString))).

Definition encode (cps : list N) : string :=
  List.fold_right (fun cp s => utf8 cp +:+ s) EmptyString cps.

(** The code points for which [str.isspace()] holds: the characters
    [str.strip()] removes. *)
Definition WHITESPACE : list N :=
  [0x09; 0x0A; 0x0B; 0x0C; 0x0D; 0x1C; 0x1D; 0x1E; 0x1F; 0x20; 0x85; 0xA0;
   0x1680; 0x2000; 0x2001; 0x2002; 0x2003; 0x2004; 0x2005; 0x2006; 0x2007;
   0x2008; 0x2009; 0x200A; 0x2028; 0x2029; 0x202F; 0x205F; 0x3000]%N.

(** The number of bytes of the white space character that [s] begins
    with, 0 when it begins with none. *)
Definition space_width (s : string) : nat :=
  match List.find (fun w => String.prefix w s) (utf8 <$> WHITESPACE) with
  | Some w => String.length w
  | None => 0
  end.

(** The scan of [s.lstrip()]: [skip] counts the bytes of a white space
    character just matched that are still to be stepped over. *)
Fixpoint lstrip_go (skip : nat) (s : string) : string :=
  match s with
  | EmptyString => EmptyString
  | String _ s' =>
      match skip with
      | S k => lstrip_go k s'
      | O =>
          match space_width s with
          | O => s
          | S k => lstrip_go k s'
          end
      end
  end.

(** [s.lstrip()] *)
Definition lstrip (s : string) : string := lstrip_go 0 s.

(** [s] holds white space only (or nothing). *)
Definition blank (s : string) : bool := String.eqb (lstrip s) EmptyString.

(** [s.rstrip()]: the longest tail of white space is cut. *)
Fixpoint rstrip (s : string) : string :=
  match s with
  | EmptyString => EmptyString
  | String c s' => if blank s then EmptyString else String c (rstrip s')
  end.

(** [s.strip()] *)
Definition strip (s : string) : string := rstrip (lstrip s).

(** The characters of [s], as iterating a [str] yields them: a byte that
    continues a character ([10xxxxxx]) stays with the bytes before it. *)
Definition is_continuation (c : ascii) : bool :=
  let n := nat_of_ascii c in (128 <=? n)%nat && (n <? 192)%nat.

Fixpoint chars (s : string) : list string :=
  match s with
  | EmptyString => []
  | String c s' =>
      match s' with
      | String c' _ =>
          if is_continuation c' then cons_head c (chars s')
          else String c EmptyString :: chars s'
      | EmptyString => [String c EmptyString]
      end
  end.

Definition concat (l : list string) : string := join EmptyString l.

End PyStr.

(** ** Python values, exceptions and results *)

(** Values produced by the JSON decoder, plus what the client passes
    around.  A [dict] is a finite map on string keys. *)
Inductive pyval :=
| PyNone
| PyBool (b : bool)
| PyInt (z : Z)
| PyFloat (q : Q)
| PyStr (s : string)
| PyList (l : list pyval)
| PyDict (d : gmap string pyval).

(** The exceptions the modelled code can raise.  In Python
    [JSONDecodeError] is a subclass of [ValueError]; the two are kept
    apart here and related by [isinstance_ValueError]. *)
Inductive exn :=
| ConnectionError (msg : string)
| HTTPError (status : Z)
| ValueError (msg : string)
| JSONDecodeError
| KeyError (key : string)
| TypeError
| AttributeError.

Definition isinstance_ValueError (e : exn) : bool :=
  match e with
  | ValueError _ | JSONDecodeError => true
  | _ => false
  end.

Inductive result (A : Type) :=
| Ok (a : A)
| Raise (e : exn).
Arguments Ok {A} a.
Arguments Raise {A} e.

(** The error monad of Python control flow: [x ← c; k] runs [c] and
    hands its value to [k], or propagates the exception [c] raised. *)
#[export] Instance result_ret : MRet result := fun A a => Ok a.
#[export] Instance result_bind : MBind result := fun A B f r =>
  match r with
  | Ok a => f a
  | Raise e => Raise e
  end.

(** A comprehension or [for]/[append] loop whose body may raise: items are
    mapped left to right and the first exception ends the loop. *)
Fixpoint rmap {A B} (f : A -> result B) (l : list A) : result (list B) :=
  match l with
  | [] => Ok []
  | x :: tl => y ← f x; ys ← rmap f tl; Ok (y :: ys)
  end.

(** [v[key]] for a string key. *)
Definition subscript (v : pyval) (key : string) : result pyval :=
  match v with
  | PyDict d =>
      match d !! key with
      | Some x => Ok x
      | None => Raise (KeyError key)
      end
  | _ => Raise TypeError
  end.

(** [v.get(key, dflt)] *)
Definition get_default (v : pyval) (key : string) (dflt : pyval) : result pyval :=
  match v with
  | PyDict d => Ok (default dflt (d !! key))
  | _ => Raise AttributeError
  end.

(** [iter(v)] as a [for] loop or comprehension consumes it.  A [dict]
    yields its keys; Python yields them in insertion order, which a finite
    map does not record, and no caller below depends on it: every key is
    a string, and the loop bodies fail alike on any string. *)
Definition py_iter (v : pyval) : result (list pyval) :=
  match v with
  | PyList l => Ok l
  | PyStr s => Ok (PyStr <$> PyStr.chars s)
  | PyDict d => Ok (PyStr <$> (map_to_list d).*1)
  | _ => Raise TypeError
  end.

(** Truth value of an [Optional[int]] argument: [None] and [0] are falsy. *)
Definition truthy (v : option Z) : bool :=
  match v with
  | None => false
  | Some z => negb (z =? 0)%Z
  end.

(** An [Optional[int]] argument as the value it is. *)
Definition py_of_optional (v : option Z) : pyval :=
  match v with
  | None => PyNone
  | Some z => PyInt z
  end.

(** [l[:limit]], also for a negative [limit]. *)
Definition slice_to {A} (limit : Z) (l : list A) : list A :=
  if (limit <? 0)%Z
  then take (Z.to_nat (Z.of_nat (List.length l) + limit)) l
  else take (Z.to_nat limit) l.

(** ** Records of the client *)

(** The two dataclasses; each lives in a module of its name, so that the
    fields keep the names they have in the source. *)
Module Transcript.
Record t := mk {
    id : pyval;
    company_name : pyval;
    cik : pyval;
    ticker : pyval;
    year : pyval;
    quarter : pyval;
    title : pyval;
    date : pyval;
    transcript_url : pyval;
    exchange : pyval;
    market_cap : pyval
  }.
End Transcript.

Module Company.
Record t := mk {
    cik : pyval;
    name : pyval;
    ticker : pyval
  }.
End Company.

(** The dictionary [{"total": ..., "data": [...]}] that [get_transcripts]
    returns. *)
Record PagedResult := {
  total : pyval;
  data : list Transcript.t
}.

Record Response := {
  status_code : Z;
  text : string
}.

(** [requests.Session]: the cookie jar and the default headers. *)
Record Session := {
  cookies : gmap string string;
  headers : gmap string string
}.

Record CapEdgeClient := {
  session : Session
}.

(** What a call does to the outside world, in order: the GET requests it
    sends and the bodies it hands to the JSON decoder. *)
Inductive event :=
| EvGet (s : Session) (url : string) (params : gmap string pyval)
| EvJson (body : string).

(** Calls of the client: a result together with the events performed. *)
Definition io (A : Type) : Type := list event * result A.

#[export] Instance io_ret : MRet io := fun A a => ([], Ok a).
#[export] Instance io_bind : MBind io := fun A B f c =>
  match c with
  | (tr, Ok a) => let '(tr', r) := f a in ((tr ++ tr')%list, r)
  | (tr, Raise e) => (tr, Raise e)
  end.

(** A pure computation inside a call. *)
Definition lift {A} (r : result A) : io A := ([], r).

Definition BASE_URL : string := "https://capedge.com/v1/api/".

Definition SESSION_EXPIRED : string :=
  "Session expired or invalid. Please update your cookies. Response was HTML instead of JSON.".

Definition USER_AGENT : string :=
  "Mozilla/5.0 (Macintosh; Intel Mac OS X 10_15_7) AppleWebKit/537.36".

(** [response.raise_for_status()]: client and server error statuses
    raise. *)
Definition raise_for_status (r : Response) : result unit :=
  if ((400 <=? status_code r) && (status_code r <? 600))%Z
  then Raise (HTTPError (status_code r))
  else Ok tt.

(** The test of [_request] on the body: the two markers of an HTML
    document. *)
Definition looks_like_html (body : string) : bool :=
  PyStr.startswith body "<!DOCTYPE html>" || PyStr.startswith body "<html".

(** The double quote and the backslash. *)
Definition DQUOTE : string := String "034" EmptyString.
Definition BACKSLASH : string := String "092" EmptyString.

(** The value [RequestsCookieJar.set_cookie] stores for a cookie: in a
    value that starts and ends with a double quote, every backslash
    followed by a double quote is removed. *)
Definition jar_value (value : string) : string :=
  if PyStr.startswith value DQUOTE && PyStr.endswith value DQUOTE
  then PyStr.replace (BACKSLASH +:+ DQUOTE) EmptyString value
  else value.

Module Client.

Section Runtime.

(** [requests.Session.get]: the transport.  It answers with a response
    or raises (a connection failure, a timeout). *)
Variable session_get : Session -> string -> gmap string pyval -> result Response.

(** [response.json()] on a body: [None] when the body is not JSON. *)
Variable response_json : string -> option pyval.

(** [urllib.parse.urljoin] *)
Variable urljoin : string -> string -> string.

(** The builtin [int] on a string: the integer a literal denotes, [None]
    when the text is not an integer literal. *)
Variable int_of_str : string -> option Z.

(** The headers a fresh [requests.Session] carries. *)
Variable default_headers : gmap string string.

Definition do_get (s : Session) (url : string) (params : gmap string pyval)
  : io Response :=
  ([EvGet s url params], session_get s url params).

Definition do_json (body : string) : io pyval :=
  ([EvJson body],
   match response_json body with
   | Some v => Ok v
   | None => Raise JSONDecodeError
   end).

(** The builtin [int]: integers and booleans are their own value, a
    float is truncated towards zero, a string is parsed, anything else
    is a [TypeError].  (The message of the [ValueError] is cut short: Python
    appends the [repr] of the string.  The floats of [pyval] are the
    finite ones; the infinities and NaN, for which [int] raises, are not
    among the values modelled.) *)
Definition py_int (v : pyval) : result Z :=
  match v with
  | PyInt z => Ok z
  | PyBool b => Ok (if b then 1 else 0)%Z
  | PyFloat q => Ok (Z.quot (Qnum q) (Z.pos (Qden q)))
  | PyStr s =>
      match int_of_str s with
      | Some z => Ok z
      | None => Raise (ValueError "invalid literal for int() with base 10")
      end
  | PyNone | PyList _ | PyDict _ => Raise TypeError
  end.

(** [CapEdgeClient.__init__]: [session.cookies.update(cookies)] sets
    every cookie of the dictionary in the empty jar of the new session,
    each with the value [set_cookie] stores for it. *)
Definition init (cookies : gmap string string) : CapEdgeClient :=
  {| session :=
      {| cookies := (jar_value <$> cookies) ∪ ∅;
         headers := <["User-Agent" := USER_AGENT]>
                      (<["Accept" := "application/json"]> default_headers) |} |}.

(** One iteration of the loop of [from_cookie_string]. *)
Definition cookie_step (cookies : gmap string string) (item : string)
  : result (gmap string string) :=
  if PyStr.contains "=" item then
    match PyStr.split1 "=" item with
    | [key; value] => Ok (<[key := value]> cookies)
    | _ => Raise (ValueError "not enough values to unpack (expected 2, got 1)")
    end
  else Ok cookies.

Fixpoint cookie_loop (cookies : gmap string string) (items : list string)
  : result (gmap string string) :=
  match items with
  | [] => Ok cookies
  | item :: rest => cookies' ← cookie_step cookies item; cookie_loop cookies' rest
  end.

(** [CapEdgeClient.from_cookie_string] *)
Definition from_cookie_string (cookie_string : string) : result CapEdgeClient :=
  cookies ← cookie_loop ∅ (PyStr.split "; " cookie_string);
  Ok (init cookies).

(** [CapEdgeClient._request] *)
Definition _request (self : CapEdgeClient) (endpoint : string)
    (params : gmap string pyval) : io pyval :=
  let url := urljoin BASE_URL endpoint in
  response ← do_get (session self) url params;
  _ ← lift (raise_for_status response);
  if looks_like_html (text response)
  then lift (Raise (ValueError SESSION_EXPIRED))
  else do_json (text response).

Definition company_of_item (item : pyval) : result Company.t :=
  c ← subscript item "value";
  n ← subscript item "label";
  t ← get_default item "tradingSymbol" PyNone;
  Ok (Company.mk c n t).

(** The comprehension of [search_company] over [data.get("data", [])]. *)
Definition companies_of_payload (data : pyval) : result (list Company.t) :=
  items ← get_default data "data" (PyList []);
  items ← py_iter items;
  rmap company_of_item items.

(** [CapEdgeClient.search_company] *)
Definition search_company (self : CapEdgeClient) (query : string)
  : io (list Company.t) :=
  data ← _request self "search/company" {["q" := PyStr query]};
  lift (companies_of_payload data).

(** The keyword arguments of [Transcript(...)] in [get_transcripts], in
    the order Python evaluates them. *)
Definition transcript_of_item (item : pyval) : result Transcript.t :=
  i ← subscript item "id";
  cn ← (c ← subscript item "company"; subscript c "name");
  ck ← (c ← subscript item "company"; subscript c "cik");
  tk ← get_default item "ticker" (PyStr "");
  y ← subscript item "year";
  q ← subscript item "quarter";
  ti ← subscript item "title";
  d ← subscript item "date";
  u ← subscript item "transcriptUrl";
  ex ← get_default item "exchange" PyNone;
  mc ← get_default item "marketCap" PyNone;
  Ok {| Transcript.id := i; Transcript.company_name := cn;
        Transcript.cik := ck; Transcript.ticker := tk; Transcript.year := y;
        Transcript.quarter := q; Transcript.title := ti; Transcript.date := d;
        Transcript.transcript_url := u; Transcript.exchange := ex;
        Transcript.market_cap := mc |}.

(** The query parameters [get_transcripts] builds. *)
Definition transcripts_params (page : Z) (company_id : option Z)
  : gmap string pyval :=
  let params : gmap string pyval := {["page" := PyInt page]} in
  if truthy company_id
  then <["companyId" := py_of_optional company_id]> params
  else params.

(** The mapping of a decoded payload in [get_transcripts]: the loop over
    [data.get("data", [])] and the dictionary returned. *)
Definition transcripts_of_payload (data : pyval) : result PagedResult :=
  items ← get_default data "data" (PyList []);
  items ← py_iter items;
  transcripts ← rmap transcript_of_item items;
  t ← get_default data "total" (PyInt 0);
  Ok {| total := t; data := transcripts |}.

(** [CapEdgeClient.get_transcripts] *)
Definition get_transcripts (self : CapEdgeClient) (page : Z)
    (company_id : option Z) : io PagedResult :=
  let params := transcripts_params page company_id in
  data ← _request self "transcripts" params;
  lift (transcripts_of_payload data).

(** [CapEdgeClient.get_company_transcripts] *)
Definition get_company_transcripts (self : CapEdgeClient) (cik : Z) (page : Z)
  : io PagedResult :=
  get_transcripts self page (Some cik).

(** [CapEdgeClient.get_latest_transcripts] *)
Definition get_latest_transcripts (self : CapEdgeClient) (limit : Z)
  : io (list Transcript.t) :=
  r ← get_transcripts self 1 None;
  mret (slice_to limit (data r)).

(** [CapEdgeClient.find_company_cik] *)
Definition find_company_cik (self : CapEdgeClient) (name_or_ticker : string)
  : io (option Z) :=
  companies ← search_company self name_or_ticker;
  match companies with
  | c :: _ => z ← lift (py_int (Company.cik c)); mret (Some z)
  | [] => mret None
  end.

End Runtime.

End Client.

Import Client.

(** ** The parsed HTML tree *)

(** What [BeautifulSoup(..., "html.parser")] builds, as far as the
    extraction looks at it: text nodes, comments (strings that [get_text]
    leaves out) and tags with their name, the value of their [class]
    attribute (a list of class names, empty when absent) and their
    children. *)
Inductive node :=
| NavigableString (s : string)
| Comment (s : string)
| Tag (tag_name : string) (classes : list string) (contents : list node).

(** [n.name == nm]; the name of a string node is [None]. *)
Definition is_named (nm : string) (n : node) : bool :=
  match n with
  | Tag x _ _ => bool_decide (x = nm)
  | _ => false
  end.

(** [list(n.children)] *)
Definition children (n : node) : list node :=
  match n with
  | Tag _ _ cs => cs
  | _ => []
  end.

(** [n.descendants]: every node below [n], in document order. *)
Fixpoint descendants (n : node) : list node :=
  match n with
  | Tag _ _ cs =>
      (fix below (l : list node) : list node :=
         match l with
         | [] => []
         | c :: tl => (c :: descendants c ++ below tl)%list
         end) cs
  | _ => []
  end.

(** The filter of [find(nm, class_=cls)]: a tag of that name with [cls]
    among its classes. *)
Definition matches (nm cls : string) (n : node) : bool :=
  match n with
  | Tag x cl _ => bool_decide (x = nm) && bool_decide (cls ∈ cl)
  | _ => false
  end.

(** [n.find(nm, class_=cls)]: the first match below [n], or [None]. *)
Definition find (n : node) (nm cls : string) : option node :=
  List.find (matches nm cls) (descendants n).

(** [n.find_all(nm)] *)
Definition find_all (n : node) (nm : string) : list node :=
  List.filter (is_named nm) (descendants n).

(** The strings [get_text] collects below [n]. *)
Definition all_strings (n : node) : list string :=
  omap (fun d => match d with NavigableString s => Some s | _ => None end)
       (descendants n).

(** [n.get_text()] *)
Definition get_text (n : node) : string := PyStr.concat (all_strings n).

(** [n.get_text(strip=True)]: every string is stripped and the empty
    ones are left out before joining. *)
Definition get_text_strip (n : node) : string :=
  PyStr.concat
    (List.filter (fun s => negb (String.eqb s EmptyString))
                 (PyStr.strip <$> all_strings n)).

Definition inspect {A} (a : A) : {b | a = b} := exist _ a eq_refl.

Definition newline : string := String "010" EmptyString.

(** What [parse_transcript_html] appends to [lines] for a speaker and
    for a paragraph. *)
Definition append_speaker (speaker : string) : list string :=
  [newline +:+ "[" +:+ speaker +:+ "]" +:+ newline].
Definition append_text (text : string) : list string := [text].

(** What [main] prints for a speaker and for a paragraph ([print(text)]
    and then [print()]). *)
Definition print_speaker (speaker : string) : list string :=
  [newline +:+ "[" +:+ speaker +:+ "]"].
Definition print_text (text : string) : list string := [text; EmptyString].

Module Extractor.

Section Libraries.

(** [BeautifulSoup(html, "html.parser")]: the top-level nodes of the
    parsed document. *)
Variable html_parser : string -> list node.

(** The substitution [_charref.sub(_replace_charref, s)] inside
    [html.unescape], which rewrites the character references of [s]. *)
Variable replace_charrefs : string -> string.

(** [html.unescape]: text without an ampersand is returned as it is. *)
Definition unescape (s : string) : string :=
  if PyStr.contains "&" s then replace_charrefs s else s.

Definition BeautifulSoup (html_content : string) : node :=
  Tag "[document]" [] (html_parser html_content).

(** The texts of the paragraphs of a content block, as the loops emit
    them. *)
Definition paragraphs (content_div : node) : list string :=
  (fun p => unescape (get_text p)) <$> find_all content_div "p".

Section Loop.

(** The two scripts run the same loop and differ in what they do with
    a speaker and with a paragraph: [on_speaker] and [on_text] give
    the strings appended (or printed) for each. *)
Variables on_speaker on_text : string -> list string.

(** The [while i < len(children)] loop; [out] collects the output so
    far.  [children !! i] is [Some child] exactly when
    [i < len(children)], so the two matches are the two bounds tests. *)
Equations? walk (children : list node) (i : nat) (out : list string)
  : list string by wf (List.length children - i) lt :=
walk children i out with inspect (children !! i) := {
  | exist _ None _ => out
  | exist _ (Some child) Hchild =>
      if is_named "h3" child then
        let speaker := get_text_strip child in
        let out := (out ++ on_speaker speaker)%list in
        match children !! (i + 1) with
        | Some content_div =>
            let out :=
              if is_named "div" content_div
              then (out ++ mbind on_text (paragraphs content_div))%list
              else out in
            walk children (i + 1 + 1) out
        | None => walk children (i + 1) out
        end
      else walk children (i + 1) out }.
Proof.
  all: match goal with
       | H : _ !! _ = Some _ |- _ => apply lookup_lt_Some in H
       end; lia.
Qed.

End Loop.

(** [parse_transcript_html] of [fetch_recent_transcripts.py] *)
Definition parse_transcript_html (html_content : string) : string :=
  let soup := BeautifulSoup html_content in
  match find soup "div" "r6o-annotatable" with
  | None => EmptyString
  | Some transcript_grid =>
      match find transcript_grid "div" "grid" with
      | None => EmptyString
      | Some grid_div =>
          let lines := walk append_speaker append_text (children grid_div) 0 [] in
          PyStr.join newline lines
      end
  end.

(** The transcript part of [main] of [fetch_transcript.py], from the
    lookup of the annotatable container on: the arguments of its
    [print] calls, in order. *)
Definition print_transcript (html_content : string) : list string :=
  let soup := BeautifulSoup html_content in
  match find soup "div" "r6o-annotatable" with
  | None => ["Could not find transcript content in the page"]
  | Some transcript_grid =>
      match find transcript_grid "div" "grid" with
      | None => []
      | Some grid_div =>
          walk print_speaker print_text (children grid_div) 0 []
      end
  end.

(** The transcript body as the data model has it: one (speaker,
    paragraphs) segment for each heading the loop stops at. *)
Fixpoint segments (children : list node) : list (string * list string) :=
  match children with
  | [] => []
  | child :: rest =>
      if is_named "h3" child then
        match rest with
        | [] => [(get_text_strip child, [])]
        | content_div :: rest' =>
            (get_text_strip child,
             if is_named "div" content_div then paragraphs content_div else [])
            :: segments rest'
        end
      else segments rest
  end.

(** What the loop outputs for a list of segments. *)
Definition render (on_speaker on_text : string -> list string)
    (segs : list (string * list string)) : list string :=
  mbind (fun seg => (on_speaker seg.1 ++ mbind on_text seg.2)%list) segs.

End Libraries.

End Extractor.

Import Extractor.

(** ** Vocabulary of the statements *)

(** A cookie segment assigns the key [k]: it has an [=] and the text
    before the first one is [k]. *)
Definition sets_key (k item : string) : Prop :=
  fst <$> PyStr.find "=" item = Some k.

(** The field [k] of a JSON object; a value that is no object has no
    fields. *)
Definition field (v : pyval) (k : string) : option pyval :=
  match v with
  | PyDict d => d !! k
  | _ => None
  end.

(** The field reached by a path of names, as in [company.name]. *)
Fixpoint lookup_path (v : pyval) (path : list string) : option pyval :=
  match path with
  | [] => Some v
  | k :: rest =>
      match field v k with
      | Some x => lookup_path x rest
      | None => None
      end
  end.

(** The fields of a listing item that [get_transcripts] subscripts. *)
Definition REQUIRED : list (list string) :=
  [["id"]; ["company"; "name"]; ["company"; "cik"]; ["year"]; ["quarter"];
   ["title"]; ["date"]; ["transcriptUrl"]].

Definition has_required (item : pyval) : Prop :=
  Forall (fun path => is_Some (lookup_path item path)) REQUIRED.

Definition lacks_required (item : pyval) : Prop :=
  Exists (fun path => lookup_path item path = None) REQUIRED.

(** The exceptions a failed field access raises: [KeyError] for a key an
    object does not have, [TypeError] where the value subscripted is no
    object at all. *)
Definition mapping_error (e : exn) : Prop :=
  e = TypeError \/ exists k, e = KeyError k.

(** The GET requests among the events of a call. *)
Definition requests_sent (tr : list event) : list (string * gmap string pyval) :=
  omap (fun ev => match ev with
                  | EvGet _ url params => Some (url, params)
                  | EvJson _ => None
                  end) tr.

(** The bodies handed to the JSON decoder among the events of a call. *)
Definition bodies_decoded (tr : list event) : list string :=
  omap (fun ev => match ev with
                  | EvJson body => Some body
                  | EvGet _ _ _ => None
                  end) tr.

(** The children of a grid that alternates headings and content blocks. *)
Definition interleave (pairs : list (node * node)) : list node :=
  pairs ≫= (fun hd => [hd.1; hd.2]).

(** Builders for the trees of the examples: a heading and a paragraph
    holding one text node, and a content block. *)
Definition h3_of (s : string) : node := Tag "h3" [] [NavigableString s].
Definition p_of (s : string) : node := Tag "p" [] [NavigableString s].
Definition div_of (cs : list node) : node := Tag "div" [] cs.

(** A fixed world for the examples: a server that answers every request
    with one response, a decoder given by a table from bodies to values,
    [urljoin] on a relative endpoint, and [int] on strings of digits. *)
Module Demo.

Definition session_get (status : Z) (body : string)
  : Session -> string -> gmap string pyval -> result Response :=
  fun _ _ _ => Ok {| status_code := status; text := body |}.

Definition response_json (table : list (string * pyval)) (body : string)
  : option pyval :=
  snd <$> List.find (fun kv => String.eqb kv.1 body) table.

Definition urljoin (base url : string) : string := base +:+ url.

Definition digit (c : ascii) : option Z :=
  let n := nat_of_ascii c in
  if ((48 <=? n)%nat && (n <=? 57)%nat) then Some (Z.of_nat (n - 48)) else None.

Fixpoint digits (acc : Z) (s : string) : option Z :=
  match s with
  | EmptyString => Some acc
  | String c s' =>
      match digit c with
      | Some d => digits (10 * acc + d) s'
      | None => None
      end
  end.

Definition int_of_str (s : string) : option Z :=
  match s with
  | EmptyString => None
  | _ => digits 0 s
  end.

Definition client : CapEdgeClient := init ∅ {[ "sessionId" := "s" ]}.

(** A listing item with every field, and one with the required fields
    only. *)
Definition company : pyval :=
  PyDict {[ "name" := PyStr "Rocket Lab"; "cik" := PyInt 1819994 ]}.

Definition full_item : pyval :=
  PyDict {[ "id" := PyStr "t1"; "company" := company; "ticker" := PyStr "RKLB";
            "year" := PyInt 2025; "quarter" := PyInt 2; "title" := PyStr "Q2 call";
            "date" := PyStr "2025-08-07T00:00:00Z";
            "transcriptUrl" := PyStr "https://capedge.com/transcript/t1";
            "exchange" := PyStr "NASDAQ"; "marketCap" := PyInt 20000000000 ]}.

Definition bare_item : pyval :=
  PyDict {[ "id" := PyStr "t2"; "company" := company;
            "year" := PyInt 2025; "quarter" := PyInt 1; "title" := PyStr "Q1 call";
            "date" := PyStr "2025-05-08T00:00:00Z";
            "transcriptUrl" := PyStr "https://capedge.com/transcript/t2" ]}.

(** An item without its [id]. *)
Definition broken_item : pyval :=
  PyDict {[ "company" := company; "year" := PyInt 2025; "quarter" := PyInt 1;
            "title" := PyStr "Q1 call"; "date" := PyStr "2025-05-08T00:00:00Z";
            "transcriptUrl" := PyStr "https://capedge.com/transcript/t3" ]}.

Definition html_body : string := "<!DOCTYPE html><html><body>Sign in</body></html>".

(** The listing with the broken item, the listing the server pages out
    of, and a search result; each is what the decoder makes of the body
    named beside it. *)
Definition broken_listing : pyval :=
  PyDict {[ "total" := PyInt 1; "data" := PyList [broken_item] ]}.

Definition listing : pyval :=
  PyDict {[ "total" := PyInt 2; "data" := PyList [full_item; bare_item] ]}.

Definition search_result : pyval :=
  PyDict {[ "data" := PyList
      [PyDict {[ "value" := PyStr "1819994"; "label" := PyStr "Rocket Lab USA";
                 "tradingSymbol" := PyStr "RKLB" ]};
       PyDict {[ "value" := PyStr "1000000"; "label" := PyStr "Rocket Fuel" ]}] ]}.

(** A listing whose [total] is below the number of its items. *)
Definition short_total : pyval :=
  PyDict {[ "total" := PyInt 1; "data" := PyList [full_item; bare_item; bare_item] ]}.

Definition table : list (string * pyval) :=
  [("broken listing", broken_listing); ("listing", listing);
   ("search result", search_result); ("short total", short_total)].

(** A parser that returns a fixed tree, and the substitution of character
    references left as the identity (the examples hold none). *)
Definition html_parser (tree : list node) (html_content : string) : list node := tree.

Definition replace_charrefs (s : string) : string := s.

Definition grid : list node :=
  [h3_of "Alice"; div_of [p_of "Hi"; p_of "There"]; h3_of "Bob"; div_of [p_of "Yo"]].

(** A substitution that knows one character reference: [&amp;] stands
    for an ampersand. *)
Definition decode_amp (s : string) : string := PyStr.replace "&amp;" "&" s.

(** A heading padded with blanks, a no-break space and a line break, and
    the same grid with it and with a character reference in a
    paragraph. *)
Definition padded : string := "  Alice" +:+ PyStr.utf8 0xA0 +:+ newline.

Definition padded_grid : list node :=
  [h3_of padded; div_of [p_of "Q&amp;A"; p_of " Hi "]; h3_of "Bob"; div_of [p_of "Yo"]].

Definition page (grid_children : list node) : list node :=
  [Tag "html" []
     [Tag "body" []
        [Tag "div" ["r6o-annotatable"] [Tag "div" ["grid"; "gap-4"] grid_children]]]].

Definition empty_page : list node :=
  [Tag "html" [] [Tag "body" [] [Tag "p" [] [NavigableString "Not available yet"]]]].

End Demo.

(** ** Further callers of the request layer *)

(** The truth value of a decoded value, as [if v:] and [not v] take it. *)
Definition py_truthy (v : pyval) : bool :=
  match v with
  | PyNone => false
  | PyBool b => b
  | PyInt z => negb (z =? 0)%Z
  | PyFloat q => negb (Qnum q =? 0)%Z
  | PyStr s => negb (String.eqb s EmptyString)
  | PyList l => negb (Nat.eqb (List.length l) 0)
  | PyDict d => negb (Nat.eqb (size d) 0)
  end.

(** [response.ok]: [raise_for_status] would not raise. *)
Definition response_ok (r : Response) : bool :=
  match raise_for_status r with
  | Ok _ => true
  | Raise _ => false
  end.

(** The dataclass of [examples/list_ipos.py]. *)
Module IPOFiling.
Record t := mk {
  id : pyval;
  form_type : pyval;
  filename : pyval;
  date : pyval;
  cik : pyval;
  company_name : pyval;
  is_follow_on : pyval
}.
End IPOFiling.

(** [examples/list_ipos.py] *)
Module ListIpos.

(** The dictionary [{"total": ..., "data": [...]}] that [get_latest_ipos]
    returns. *)
Record Listing := {
  total : pyval;
  data : list IPOFiling.t
}.

(** The keyword arguments of [IPOFiling(...)], in the order Python
    evaluates them. *)
Definition filing_of_item (item : pyval) : result IPOFiling.t :=
  i ← get_default item "id" (PyStr "");
  ty ← get_default item "type" (PyStr "");
  fn ← get_default item "filename" (PyStr "");
  d ← get_default item "date" (PyStr "");
  ck ← (f ← get_default item "filer" (PyDict ∅); get_default f "cik" PyNone);
  cn ← (f ← get_default item "filer" (PyDict ∅); get_default f "name" (PyStr ""));
  fo ← get_default item "isFollowOn" (PyBool false);
  Ok {| IPOFiling.id := i; IPOFiling.form_type := ty; IPOFiling.filename := fn;
        IPOFiling.date := d; IPOFiling.cik := ck; IPOFiling.company_name := cn;
        IPOFiling.is_follow_on := fo |}.

Definition filings_of_payload (payload : pyval) : result Listing :=
  items ← get_default payload "data" (PyList []);
  items ← py_iter items;
  filings ← rmap filing_of_item items;
  t ← get_default payload "total" (PyInt 0);
  Ok {| total := t; data := filings |}.

Section Runtime.

Variable session_get : Session -> string -> gmap string pyval -> result Response.
Variable response_json : string -> option pyval.
Variable urljoin : string -> string -> string.

(** [get_latest_ipos] *)
Definition get_latest_ipos (client : CapEdgeClient) (page limit : Z)
  : io Listing :=
  payload ← Client._request session_get response_json urljoin client "ipos/latest"
             (<["limit" := PyInt limit]> {["page" := PyInt page]});
  lift (filings_of_payload payload).

End Runtime.

End ListIpos.

(** [examples/fetch_ipo_profiles.py] *)
Module IpoProfiles.

(** The dictionary the comprehension of [get_latest_ipos] builds for an
    item, its values in the order Python evaluates them. *)
Definition filing_dict (item : pyval) : result (gmap string pyval) :=
  ck ← (f ← get_default item "filer" (PyDict ∅); get_default f "cik" PyNone);
  nm ← (f ← get_default item "filer" (PyDict ∅); get_default f "name" (PyStr ""));
  ft ← get_default item "type" (PyStr "");
  fo ← get_default item "isFollowOn" (PyBool false);
  d ← get_default item "date" (PyStr "");
  Ok (<["date" := d]> (<["is_follow_on" := fo]> (<["form_type" := ft]>
        (<["name" := nm]> {["cik" := ck]})))).

(** The comprehension with its filter [if not item.get("isFollowOn",
    False)], which Python tests before it builds the dictionary. *)
Fixpoint ipo_filings (items : list pyval) : result (list (gmap string pyval)) :=
  match items with
  | [] => Ok []
  | item :: rest =>
      fo ← get_default item "isFollowOn" (PyBool false);
      if py_truthy fo then ipo_filings rest
      else f ← filing_dict item; fs ← ipo_filings rest; Ok (f :: fs)
  end.

Definition SEARCH_URL : string := "https://capedge.com/v1/api/search/company".

Section Runtime.

Variable session_get : Session -> string -> gmap string pyval -> result Response.

(** [requests.Session.get] called with [timeout=]. *)
Variable session_get_timeout :
  Session -> string -> gmap string pyval -> Z -> result Response.

Variable response_json : string -> option pyval.
Variable urljoin : string -> string -> string.

(** The builtin [str] *)
Variable py_str : pyval -> string.

(** [get_latest_ipos] *)
Definition get_latest_ipos (client : CapEdgeClient) (limit : Z)
  : io (list (gmap string pyval)) :=
  payload ← Client._request session_get response_json urljoin client "ipos/latest"
             {["page" := PyInt 1]};
  lift (items ← get_default payload "data" (PyList []);
        items ← py_iter items;
        filings ← ipo_filings items;
        Ok (slice_to limit filings)).

(** The [for] loop of [get_company_ticker]: [Some] of the value returned
    from inside the loop, [None] when the loop runs to its end. *)
Fixpoint ticker_of_items (cik : Z) (items : list pyval) : result (option pyval) :=
  match items with
  | [] => Ok None
  | item :: rest =>
      v ← get_default item "value" PyNone;
      matched ← (if String.eqb (py_str v) (py_str (PyInt cik))
                 then t ← get_default item "tradingSymbol" PyNone; Ok (py_truthy t)
                 else Ok false);
      if (matched : bool) then s ← subscript item "tradingSymbol"; Ok (Some s)
      else
        t ← get_default item "tradingSymbol" PyNone;
        if py_truthy t then s ← subscript item "tradingSymbol"; Ok (Some s)
        else ticker_of_items cik rest
  end.

(** The body of the [try] of [get_company_ticker]. *)
Definition try_company_ticker (client : CapEdgeClient) (cik : Z) (name : string)
  : io (option pyval) :=
  let params : gmap string pyval := {["q" := PyStr name]} in
  resp ← ([EvGet (session client) SEARCH_URL params],
          session_get_timeout (session client) SEARCH_URL params 10);
  if response_ok resp then
    payload ← Client.do_json response_json (text resp);
    lift (items ← get_default payload "data" (PyList []);
          items ← py_iter items;
          ticker_of_items cik items)
  else mret None.

(** [get_company_ticker]: [except Exception: pass] turns every exception
    into the final [return None]. *)
Definition get_company_ticker (client : CapEdgeClient) (cik : Z) (name : string)
  : io (option pyval) :=
  let '(tr, r) := try_company_ticker client cik name in
  (tr, Ok (match r with
           | Ok found => found
           | Raise _ => None
           end)).

End Runtime.

End IpoProfiles.

(** [examples/fetch_transcript.py] *)
Module FetchTranscript.

Definition ticker : string := "RKLB".
Definition company_name : string := "Rocket Lab".

Definition SEARCHING : string := "Searching for " +:+ ticker +:+ "...".
Definition TRYING_NAME : string :=
  "Could not find " +:+ ticker +:+ ". Trying full name...".
Definition NOT_FOUND : string :=
  "Error: Could not find CIK for " +:+ ticker +:+ " or " +:+ company_name.

Section Runtime.

Variable session_get : Session -> string -> gmap string pyval -> result Response.
Variable response_json : string -> option pyval.
Variable urljoin : string -> string -> string.
Variable int_of_str : string -> option Z.
Variable default_headers : gmap string string.

(** The start of [main], up to the point where the CIK is known or the
    script gives up: the events of the calls, the lines printed, and the
    CIK to go on with ([None] where [main] returns).  The lines printed
    are kept apart from the result, since a line printed before a call
    stays printed when the call raises. *)
Definition main_lookup (COOKIES : string)
  : list event * list string * result (option Z) :=
  match Client.from_cookie_string default_headers COOKIES with
  | Raise e => ([], [], Raise e)
  | Ok client =>
      let find := Client.find_company_cik session_get response_json urljoin
                    int_of_str client in
      let '(tr1, r1) := find ticker in
      match r1 with
      | Raise e => (tr1, [SEARCHING], Raise e)
      | Ok target_cik =>
          if truthy target_cik then (tr1, [SEARCHING], Ok target_cik)
          else
            let '(tr2, r2) := find company_name in
            match r2 with
            | Raise e => ((tr1 ++ tr2)%list, [SEARCHING; TRYING_NAME], Raise e)
            | Ok target_cik =>
                if truthy target_cik
                then ((tr1 ++ tr2)%list, [SEARCHING; TRYING_NAME], Ok target_cik)
                else ((tr1 ++ tr2)%list, [SEARCHING; TRYING_NAME; NOT_FOUND], Ok None)
            end
      end
  end.

End Runtime.

End FetchTranscript.

(** ** Vocabulary of the further statements *)

(** A cookie as it stands in a cookie string, and the string of a list of
    cookies. *)
Definition cookie_field (kv : string * string) : string :=
  kv.1 +:+ "=" +:+ kv.2.

Definition cookie_header (pairs : list (string * string)) : string :=
  PyStr.join "; " (cookie_field <$> pairs).

(** A record holds the fields of a listing item, one for one. *)
Definition maps_to_transcript (item : pyval) (t : Transcript.t) : Prop :=
  lookup_path item ["id"] = Some (Transcript.id t)
  /\ lookup_path item ["company"; "name"] = Some (Transcript.company_name t)
  /\ lookup_path item ["company"; "cik"] = Some (Transcript.cik t)
  /\ Transcript.ticker t = default (PyStr "") (field item "ticker")
  /\ lookup_path item ["year"] = Some (Transcript.year t)
  /\ lookup_path item ["quarter"] = Some (Transcript.quarter t)
  /\ lookup_path item ["title"] = Some (Transcript.title t)
  /\ lookup_path item ["date"] = Some (Transcript.date t)
  /\ lookup_path item ["transcriptUrl"] = Some (Transcript.transcript_url t)
  /\ Transcript.exchange t = default PyNone (field item "exchange")
  /\ Transcript.market_cap t = default PyNone (field item "marketCap").

(** A company holds the fields of a search result, one for one. *)
Definition maps_to_company (item : pyval) (c : Company.t) : Prop :=
  field item "value" = Some (Company.cik c)
  /\ field item "label" = Some (Company.name c)
  /\ Company.ticker c = default PyNone (field item "tradingSymbol").

(** The transcript body of a page: the segments of the grid below the
    annotatable container, none when either container is missing. *)
Definition transcript_body (html_parser : string -> list node)
    (replace_charrefs : string -> string) (html_content : string)
  : list (string * list string) :=
  match find (BeautifulSoup html_parser html_content) "div" "r6o-annotatable" with
  | None => []
  | Some transcript_grid =>
      match find transcript_grid "div" "grid" with
      | None => []
      | Some grid_div => segments replace_charrefs (children grid_div)
      end
  end.

(** No heading of the list is directly followed by a heading. *)
Definition headings_apart (l : list node) : Prop :=
  forall i h x,
    l !! i = Some h -> l !! (S i) = Some x ->
    is_named "h3" h = true -> is_named "h3" x = false.

(** The ticker of the first item that has a truthy [tradingSymbol]. *)
Fixpoint first_symbol (items : list pyval) : result (option pyval) :=
  match items with
  | [] => Ok None
  | item :: rest =>
      t ← get_default item "tradingSymbol" PyNone;
      if py_truthy t then Ok (Some t) else first_symbol rest
  end.

(** An item is an object whose [filer], when present, is an object. *)
Definition filer_is_object (item : pyval) : Prop :=
  exists o, item = PyDict o
    /\ forall f, o !! "filer" = Some f -> exists fo, f = PyDict fo.

(** A filing holds the fields of an item, each with its default. *)
Definition maps_to_filing (item : pyval) (f : IPOFiling.t) : Prop :=
  IPOFiling.id f = default (PyStr "") (field item "id")
  /\ IPOFiling.form_type f = default (PyStr "") (field item "type")
  /\ IPOFiling.filename f = default (PyStr "") (field item "filename")
  /\ IPOFiling.date f = default (PyStr "") (field item "date")
  /\ IPOFiling.cik f =
       default PyNone (field (default (PyDict ∅) (field item "filer")) "cik")
  /\ IPOFiling.company_name f =
       default (PyStr "") (field (default (PyDict ∅) (field item "filer")) "name")
  /\ IPOFiling.is_follow_on f = default (PyBool false) (field item "isFollowOn").

(** Further payloads for the examples, each the decoded form of the body
    named beside it in [table]. *)
Module DemoMore.

Definition cookie_pairs : list (string * string) :=
  [("sessionId", "abc"); ("theme", "dark"); ("sessionId", "xyz")].

Definition search_items : list pyval :=
  [PyDict {[ "value" := PyStr "1819994"; "label" := PyStr "Rocket Lab USA";
             "tradingSymbol" := PyStr "RKLB" ]};
   PyDict {[ "value" := PyStr "1000000"; "label" := PyStr "Rocket Fuel" ]}].

Definition search_payload : pyval := PyDict {[ "data" := PyList search_items ]}.

Definition no_label : gmap string pyval := {[ "value" := PyStr "42" ]}.

Definition search_no_label : pyval :=
  PyDict {[ "data" := PyList (search_items ++ [PyDict no_label]) ]}.

Definition null_cik_payload : pyval :=
  PyDict {[ "data" := PyList [PyDict {[ "value" := PyNone; "label" := PyStr "Nameless" ]}] ]}.

Definition listing_items : list pyval := [Demo.full_item; Demo.bare_item].

Definition listing : gmap string pyval :=
  {[ "total" := PyInt 2; "data" := PyList listing_items ]}.

Definition listing_without_total : gmap string pyval :=
  {[ "data" := PyList listing_items ]}.

Definition null_data : pyval := PyDict {[ "total" := PyInt 0; "data" := PyNone ]}.

Definition ipo_items : list pyval :=
  [PyDict {[ "id" := PyStr "f1"; "type" := PyStr "S-1";
             "filer" := PyDict {[ "cik" := PyInt 2000001; "name" := PyStr "Newco" ]} ]};
   PyDict {[ "id" := PyStr "f2"; "isFollowOn" := PyBool true ]}].

Definition ipo_payload : pyval :=
  PyDict {[ "total" := PyInt 40; "data" := PyList ipo_items ]}.

Definition null_filer : gmap string pyval := {[ "id" := PyStr "f3"; "filer" := PyNone ]}.

Definition ipo_null_filer : pyval :=
  PyDict {[ "data" := PyList (ipo_items ++ [PyDict null_filer]) ]}.

(** A grid with a line break before the first heading, a heading that
    a line break separates from its block, and a paragraph with a
    character reference. *)
Definition stray_grid : list node :=
  [NavigableString newline; h3_of "Alice"; NavigableString newline;
   div_of [p_of "lost"]; h3_of "Bob"; div_of [p_of "Q&amp;A"]].

Definition table : list (string * pyval) :=
  [("search", search_payload); ("search no label", search_no_label);
   ("null cik", null_cik_payload); ("listing", PyDict listing);
   ("listing without total", PyDict listing_without_total);
   ("null data", null_data); ("empty object", PyDict ∅);
   ("ipos", ipo_payload); ("ipos null filer", ipo_null_filer)].

Definition response_json : string -> option pyval := Demo.response_json table.

End DemoMore.

(** * Properties *)

(** ** Strings *)

Module PyStrFacts.
Import PyStr.

Lemma prefix_nil s : String.prefix EmptyString s = true.
Proof. by destruct s. Qed.

Lemma prefix_cons c p d s :
  String.prefix (String c p) (String d s) = bool_decide (c = d) && String.prefix p s.
Proof.
  simpl. destruct (ascii_dec c d) as [->|Hne].
  - by rewrite bool_decide_eq_true_2.
  - by rewrite bool_decide_eq_false_2.
Qed.

Lemma app_cons c (a b : string) : String c a +:+ b = String c (a +:+ b).
Proof. done. Qed.

Lemma prefix_app p r : String.prefix p (p +:+ r) = true.
Proof.
  induction p as [|c p IH]; [apply prefix_nil|].
  change (String c p +:+ r) with (String c (p +:+ r)).
  rewrite prefix_cons, IH. by rewrite bool_decide_eq_true_2.
Qed.

Lemma prefix_inv p s :
  String.prefix p s = true -> s = p +:+ drop (String.length p) s.
Proof.
  revert s. induction p as [|c p IH]; intros s H; [done|].
  destruct s as [|d s]; [done|].
  rewrite prefix_cons in H. apply andb_true_iff in H as [Hc Hp].
  apply bool_decide_eq_true in Hc as ->. cbn [String.length drop].
  rewrite app_cons. f_equal. by apply IH.
Qed.

Lemma length_app (a b : string) :
  String.length (a +:+ b) = String.length a + String.length b.
Proof. induction a as [|x a IH]; [done|]. rewrite app_cons. simpl. congruence. Qed.

Lemma drop_app (a b : string) : drop (String.length a) (a +:+ b) = b.
Proof. induction a as [|x a IH]; [done|]. by rewrite app_cons. Qed.

Lemma app_assoc (a b c : string) : (a +:+ b) +:+ c = a +:+ (b +:+ c).
Proof. induction a as [|x a IH]; [done|]. rewrite !app_cons. congruence. Qed.

Lemma app_nil_r (a : string) : a +:+ EmptyString = a.
Proof. induction a as [|x a IH]; [done|]. rewrite app_cons. congruence. Qed.

(** *** [find] and [contains] *)

Lemma contains_find sub s : contains sub s = bool_decide (is_Some (find sub s)).
Proof.
  induction s as [|c s IH]; cbn [contains find].
  - by destruct (String.prefix sub EmptyString).
  - destruct (String.prefix sub (String c s)); [done|].
    rewrite IH. by destruct (find sub s) as [[a b]|].
Qed.

Lemma find_sound sub s a b :
  find sub s = Some (a, b) -> s = a +:+ sub +:+ b.
Proof.
  revert a b. induction s as [|c s IH]; intros a b; cbn [find].
  - destruct (String.prefix sub EmptyString) eqn:Hp; [|done].
    intros [= <- <-]. apply prefix_inv in Hp. exact Hp.
  - destruct (String.prefix sub (String c s)) eqn:Hp.
    + intros [= <- <-]. apply prefix_inv in Hp. exact Hp.
    + destruct (find sub s) as [[a' b']|]; [|done].
      intros [= <- <-]. rewrite app_cons. f_equal. by apply IH.
Qed.

(** The separator is found at its leftmost occurrence: for a
    one-character separator, the text before it is free of it. *)
Lemma find_char_leftmost c s a b :
  find (String c EmptyString) s = Some (a, b) ->
  contains (String c EmptyString) a = false.
Proof.
  revert a b. induction s as [|d s IH]; intros a b; [done|].
  cbn [find]. destruct (String.prefix (String c EmptyString) (String d s)) eqn:Hp.
  - by intros [= <- <-].
  - destruct (find (String c EmptyString) s) as [[a' b']|]; [|done].
    intros [= <- <-]. cbn [contains].
    rewrite prefix_cons in Hp |- *. rewrite prefix_nil in Hp |- *.
    rewrite andb_true_r in Hp |- *. rewrite Hp. simpl. by eapply IH.
Qed.

Lemma find_char_app c k v :
  contains (String c EmptyString) k = false ->
  find (String c EmptyString) (k +:+ String c v) = Some (k, v).
Proof.
  induction k as [|d k IH]; intros Hk.
  - change (EmptyString +:+ String c v) with (String c v). cbn [find].
    by rewrite prefix_cons, prefix_nil, bool_decide_eq_true_2.
  - cbn [contains] in Hk. apply orb_false_iff in Hk as [Hp Hk].
    rewrite prefix_cons, prefix_nil, andb_true_r in Hp.
    rewrite app_cons. cbn [find].
    rewrite prefix_cons, prefix_nil, andb_true_r, Hp.
    by rewrite IH.
Qed.

(** *** [split] and [join] *)

Lemma split_go_skip sep t r :
  split_go sep (String.length t) (t +:+ r) = split_go sep 0 r.
Proof. induction t as [|c t IH]; [done|]. simpl. apply IH. Qed.

Lemma split_nil sep : split sep EmptyString = [EmptyString].
Proof. done. Qed.

Lemma split_sep c sep r :
  split (String c sep) (String c sep +:+ r) = EmptyString :: split (String c sep) r.
Proof.
  unfold split. change (String c sep +:+ r) with (String c (sep +:+ r)).
  cbn [split_go]. rewrite prefix_cons, prefix_app, bool_decide_eq_true_2 by done.
  simpl. rewrite Nat.sub_0_r. by rewrite split_go_skip.
Qed.

Lemma split_char sep c s :
  String.prefix sep (String c s) = false ->
  split sep (String c s) = cons_head c (split sep s).
Proof. unfold split. cbn [split_go]. by intros ->. Qed.

Lemma split_cons sep s : exists hd tl, split sep s = hd :: tl.
Proof.
  unfold split. generalize 0. induction s as [|c s IH]; intros k; [by eexists _, _|].
  cbn [split_go]. destruct k as [|k]; [|apply IH].
  destruct (String.prefix sep (String c s)); [by eexists _, _|].
  destruct (IH 0) as (hd & tl & ->). by eexists _, _.
Qed.

Lemma join_cons sep x hd tl :
  join sep (x :: hd :: tl) = x +:+ sep +:+ join sep (hd :: tl).
Proof. done. Qed.

Lemma join_cons_head sep c hd tl :
  join sep (cons_head c (hd :: tl)) = String c (join sep (hd :: tl)).
Proof. by destruct tl. Qed.

(** Splitting loses nothing: joining the fields with the separator
    gives the string back. *)
Lemma join_split c sep s : join (String c sep) (split (String c sep) s) = s.
Proof.
  remember (String.length s) as n eqn:Hn. revert s Hn.
  induction (lt_wf n) as [n _ IH]; intros s ->.
  destruct s as [|d s]; [done|].
  destruct (String.prefix (String c sep) (String d s)) eqn:Hp.
  - apply prefix_inv in Hp.
    set (r := drop (String.length (String c sep)) (String d s)) in Hp.
    assert (String.length r < String.length (String d s)) as Hlt.
    { rewrite Hp, length_app. simpl. lia. }
    clearbody r. rewrite Hp, split_sep.
    destruct (split_cons (String c sep) r) as (hd & tl & Hs).
    rewrite Hs, join_cons, <- Hs. rewrite (IH _ Hlt r eq_refl). done.
  - rewrite split_char by done.
    destruct (split_cons (String c sep) s) as (hd & tl & Hs).
    rewrite Hs, join_cons_head, <- Hs. f_equal.
    eapply IH; [|done]. simpl. lia.
Qed.

Lemma prefix_mono p a rest :
  String.prefix p a = true -> String.prefix p (a +:+ rest) = true.
Proof.
  revert a. induction p as [|x p IH]; intros a H; [apply prefix_nil|].
  destruct a as [|y a]; [done|]. rewrite app_cons.
  rewrite prefix_cons in H |- *. apply andb_true_iff in H as [-> H].
  by rewrite IH.
Qed.

Lemma split_head_prefix c sep s hd tl :
  split (String c sep) s = hd :: tl -> exists rest, s = hd +:+ rest.
Proof.
  intros Hs. pose proof (join_split c sep s) as Hj. rewrite Hs in Hj.
  destruct tl as [|x tl].
  - exists EmptyString. by rewrite app_nil_r.
  - rewrite join_cons in Hj. eauto.
Qed.

(** No field of a split contains the separator. *)
Lemma split_sep_free c sep s :
  Forall (fun seg => contains (String c sep) seg = false) (split (String c sep) s).
Proof.
  remember (String.length s) as n eqn:Hn. revert s Hn.
  induction (lt_wf n) as [n _ IH]; intros s ->.
  destruct s as [|d s]; [by repeat constructor|].
  destruct (String.prefix (String c sep) (String d s)) eqn:Hp.
  - apply prefix_inv in Hp.
    set (r := drop (String.length (String c sep)) (String d s)) in Hp.
    assert (String.length r < String.length (String d s)) as Hlt.
    { rewrite Hp, length_app. simpl. lia. }
    clearbody r. rewrite Hp, split_sep. constructor; [done|].
    by apply (IH _ Hlt).
  - rewrite split_char by done.
    assert (String.length s < String.length (String d s)) as Hlt by (simpl; lia).
    pose proof (IH _ Hlt s eq_refl) as Hall.
    destruct (split (String c sep) s) as [|hd tl] eqn:Hs.
    { destruct (split_cons (String c sep) s) as (? & ? & ?). congruence. }
    apply Forall_cons in Hall as [Hhd Htl]. constructor; [|done].
    cbn [contains]. rewrite Hhd, orb_false_r.
    destruct (String.prefix (String c sep) (String d hd)) eqn:Hq; [|done].
    destruct (split_head_prefix _ _ _ _ _ Hs) as [rest ->].
    apply (prefix_mono _ _ rest) in Hq. rewrite app_cons in Hq. congruence.
Qed.

(** *** [endswith] *)

Lemma endswith_inv s suf : endswith s suf = true -> exists a, s = a +:+ suf.
Proof.
  induction s as [|c s IH]; cbn [endswith]; intros H.
  - apply orb_true_iff in H as [H|H]; [|done].
    apply String.eqb_eq in H as <-. by exists EmptyString.
  - apply orb_true_iff in H as [H|H].
    + apply String.eqb_eq in H as <-. by exists EmptyString.
    + destruct (IH H) as [a ->]. by exists (String c a).
Qed.

(** *** White space and [strip] *)

Lemma encode_cons cp cps : encode (cp :: cps) = utf8 cp +:+ encode cps.
Proof. done. Qed.

Lemma lstrip_go_drop k s : lstrip_go k s = lstrip (drop k s).
Proof.
  revert k. induction s as [|c s IH]; intros [|k]; try done.
  cbn [lstrip_go drop]. apply IH.
Qed.

(** One step of the scan. *)
Lemma lstrip_unfold s :
  lstrip s = match space_width s with
             | O => s
             | S k => lstrip (drop (S k) s)
             end.
Proof.
  destruct s as [|c s]; [done|].
  unfold lstrip at 1. cbn [lstrip_go].
  destruct (space_width (String c s)) as [|k]; [done|].
  by rewrite lstrip_go_drop.
Qed.

(** What [space_width] finds is the encoding of a white space character
    at the head of the string. *)
Lemma space_width_Some s k :
  space_width s = S k ->
  exists cp, cp ∈ WHITESPACE /\ s = utf8 cp +:+ drop (S k) s
             /\ String.length (utf8 cp) = S k.
Proof.
  unfold space_width.
  destruct (List.find _ _) as [w|] eqn:Hf; [|done].
  apply find_some in Hf as [Hin Hp]. intros Hk.
  apply list_elem_of_In, list_elem_of_fmap in Hin as (cp & -> & Hcp).
  exists cp. split_and!; [done| |done].
  rewrite <- Hk. by apply prefix_inv.
Qed.

Lemma space_width_None s cp :
  space_width s = 0 -> cp ∈ WHITESPACE -> String.prefix (utf8 cp) s = false.
Proof.
  unfold space_width.
  destruct (List.find _ _) as [w|] eqn:Hf.
  - apply find_some in Hf as [Hin Hp].
    apply list_elem_of_In, list_elem_of_fmap in Hin as (cp' & -> & Hcp).
    intros Hlen. exfalso. revert Hlen. unfold WHITESPACE in Hcp.
    repeat (apply elem_of_cons in Hcp as [->|Hcp]; [by vm_compute|]).
    by apply elem_of_nil in Hcp.
  - intros _ Hcp.
    apply (find_none _ _ Hf (utf8 cp)).
    apply list_elem_of_In, list_elem_of_fmap. eauto.
Qed.

(** Two prefixes of one string: one is a prefix of the other. *)
Lemma prefix_comparable a b s :
  String.prefix a s = true -> String.prefix b s = true ->
  String.prefix a b = true \/ String.prefix b a = true.
Proof.
  revert b s. induction a as [|x a IH]; intros b s Ha Hb.
  { left. apply prefix_nil. }
  destruct b as [|y b]; [right; apply prefix_nil|].
  destruct s as [|z s]; [done|].
  rewrite prefix_cons in Ha, Hb. rewrite !prefix_cons.
  apply andb_true_iff in Ha as [Hx Ha]. apply andb_true_iff in Hb as [Hy Hb].
  apply bool_decide_eq_true in Hx as ->. apply bool_decide_eq_true in Hy as ->.
  rewrite bool_decide_eq_true_2 by done. simpl. by eapply IH.
Qed.

Lemma find_prefix_code (tokens : list string) w r :
  List.find (fun w' => String.prefix w' w || String.prefix w w') tokens = Some w ->
  List.find (fun w' => String.prefix w' (w +:+ r)) tokens = Some w.
Proof.
  induction tokens as [|x tokens IH]; [done|]. cbn [List.find].
  destruct (String.prefix x (w +:+ r)) eqn:Hx.
  - destruct (prefix_comparable x w (w +:+ r) Hx (prefix_app w r)) as [H|H];
      rewrite H, ?orb_true_r; by cbn [orb].
  - destruct (String.prefix x w || String.prefix w x); [|done].
    intros [= ->]. by rewrite prefix_app in Hx.
Qed.

(** The encodings of the white space characters form a prefix code: at
    the head of a string, the character found is the one that stands
    there. *)
Lemma space_width_utf8 cp r :
  cp ∈ WHITESPACE -> space_width (utf8 cp +:+ r) = String.length (utf8 cp).
Proof.
  intros Hcp. unfold space_width.
  rewrite (find_prefix_code _ (utf8 cp) r); [done|].
  unfold WHITESPACE in Hcp.
  repeat (apply elem_of_cons in Hcp as [->|Hcp]; [by vm_compute|]).
  by apply elem_of_nil in Hcp.
Qed.

Lemma lstrip_utf8 cp r : cp ∈ WHITESPACE -> lstrip (utf8 cp +:+ r) = lstrip r.
Proof.
  intros Hcp. rewrite lstrip_unfold, space_width_utf8 by done.
  assert (String.length (utf8 cp) <> 0) as Hlen.
  { unfold WHITESPACE in Hcp.
    repeat (apply elem_of_cons in Hcp as [->|Hcp]; [by vm_compute|]).
    by apply elem_of_nil in Hcp. }
  destruct (String.length (utf8 cp)) as [|k] eqn:Hk; [done|].
  by rewrite <- Hk, drop_app.
Qed.

Lemma blank_encode cps : Forall (.∈ WHITESPACE) cps -> blank (encode cps) = true.
Proof.
  unfold blank. induction 1 as [|cp cps Hcp _ IH]; [done|].
  by rewrite encode_cons, lstrip_utf8.
Qed.

(** [lstrip] cuts white space characters, and only those. *)
Lemma lstrip_spec s :
  exists pre, Forall (.∈ WHITESPACE) pre /\ s = encode pre +:+ lstrip s
              /\ space_width (lstrip s) = 0.
Proof.
  remember (String.length s) as n eqn:Hn. revert s Hn.
  induction (lt_wf n) as [n _ IH]; intros s ->.
  rewrite (lstrip_unfold s). destruct (space_width s) as [|k] eqn:Hw.
  - exists []. by split_and!.
  - destruct (space_width_Some s k Hw) as (cp & Hcp & Hs & Hlen).
    set (r := drop (S k) s) in *.
    assert (String.length r < String.length s) as Hlt.
    { rewrite Hs, length_app, Hlen. lia. }
    destruct (IH _ Hlt r eq_refl) as (pre & Hpre & Hr & H0).
    exists (cp :: pre). split_and!; [by constructor| |done].
    rewrite encode_cons, app_assoc, <- Hr. exact Hs.
Qed.

Lemma blank_inv s : blank s = true -> exists pre, Forall (.∈ WHITESPACE) pre /\ s = encode pre.
Proof.
  unfold blank. intros H. apply String.eqb_eq in H.
  destruct (lstrip_spec s) as (pre & Hpre & Hs & _).
  exists pre. split; [done|]. by rewrite H, app_nil_r in Hs.
Qed.

(** [rstrip] cuts a tail of white space characters, the longest one. *)
Lemma rstrip_spec s :
  exists post, Forall (.∈ WHITESPACE) post /\ s = rstrip s +:+ encode post.
Proof.
  induction s as [|c s IH]; [by exists []|].
  cbn [rstrip]. destruct (blank (String c s)) eqn:Hb.
  - apply blank_inv in Hb as (post & Hpost & ->). by exists post.
  - destruct IH as (post & Hpost & Hs). exists post. split; [done|].
    rewrite app_cons. by f_equal.
Qed.

Lemma rstrip_longest s a u :
  rstrip s = a +:+ u -> u <> EmptyString ->
  blank (drop (String.length a) s) = false.
Proof.
  revert a. induction s as [|c s IH]; intros a.
  - cbn [rstrip]. destruct a; [|done].
    change (EmptyString +:+ u) with u. by intros <-.
  - cbn [rstrip]. destruct (blank (String c s)) eqn:Hb.
    + destruct a; [|done]. change (EmptyString +:+ u) with u. by intros <-.
    + destruct a as [|d a]; [done|].
      rewrite app_cons. intros [= <- Hr] Hu. cbn [String.length drop]. by eapply IH.
Qed.

Lemma rstrip_no_space s cp :
  cp ∈ WHITESPACE -> endswith (rstrip s) (utf8 cp) = false.
Proof.
  intros Hcp. destruct (endswith (rstrip s) (utf8 cp)) eqn:He; [|done].
  apply endswith_inv in He as [a Ha].
  destruct (rstrip_spec s) as (post & Hpost & Hs).
  assert (blank (drop (String.length a) s) = false) as Hb.
  { eapply rstrip_longest; [exact Ha|].
    unfold WHITESPACE in Hcp.
    repeat (apply elem_of_cons in Hcp as [->|Hcp]; [by vm_compute|]).
    by apply elem_of_nil in Hcp. }
  rewrite Hs, Ha, app_assoc, drop_app in Hb.
  rewrite <- encode_cons, blank_encode in Hb; [done|by constructor].
Qed.

Lemma rstrip_prefix s w :
  String.prefix w (rstrip s) = true -> String.prefix w s = true.
Proof.
  intros H. destruct (rstrip_spec s) as (post & _ & Hs).
  rewrite Hs. by apply prefix_mono.
Qed.

(** [strip] in full: white space characters are cut at both ends, and
    what is left neither starts nor ends with one. *)
Lemma strip_spec s :
  (exists pre post,
      Forall (.∈ WHITESPACE) pre /\ Forall (.∈ WHITESPACE) post
      /\ s = encode pre +:+ strip s +:+ encode post)
  /\ (forall cp, cp ∈ WHITESPACE ->
        startswith (strip s) (utf8 cp) = false
        /\ endswith (strip s) (utf8 cp) = false).
Proof.
  unfold strip. split.
  - destruct (lstrip_spec s) as (pre & Hpre & Hs & _).
    destruct (rstrip_spec (lstrip s)) as (post & Hpost & Hl).
    exists pre, post. split_and!; [done..|]. by rewrite <- Hl.
  - intros cp Hcp. split; [|by apply rstrip_no_space].
    unfold startswith.
    destruct (String.prefix (utf8 cp) (rstrip (lstrip s))) eqn:Hp; [|done].
    apply rstrip_prefix in Hp.
    destruct (lstrip_spec s) as (_ & _ & _ & H0).
    by rewrite (space_width_None _ cp H0 Hcp) in Hp.
Qed.

End PyStrFacts.

(** ** The cookie parser *)

Section Cookies.

Implicit Types (jar : gmap string string) (item k v : string).

(** One iteration, in closed form: a segment with an [=] sets the text
    before the first [=] to the text after it, any other segment leaves
    the dictionary alone; the unpacking never fails. *)
Lemma cookie_step_find jar item :
  cookie_step jar item =
  Ok (match PyStr.find "=" item with
      | Some (k, v) => <[k := v]> jar
      | None => jar
      end).
Proof.
  unfold cookie_step, PyStr.split1. rewrite PyStrFacts.contains_find.
  by destruct (PyStr.find "=" item) as [[k v]|].
Qed.

Lemma find_eq_iff item k v :
  PyStr.find "=" item = Some (k, v) <->
  item = k +:+ "=" +:+ v /\ PyStr.contains "=" k = false.
Proof.
  split.
  - intros H. split; [by apply PyStrFacts.find_sound|].
    by eapply PyStrFacts.find_char_leftmost.
  - intros [-> Hk]. by apply PyStrFacts.find_char_app.
Qed.

Lemma cookie_loop_lookup items jar :
  exists jar', cookie_loop jar items = Ok jar' /\
    forall k v, jar' !! k = Some v <->
      (exists before item after,
          items = (before ++ item :: after)%list
          /\ PyStr.find "=" item = Some (k, v)
          /\ Forall (fun it => ~ sets_key k it) after)
      \/ (jar !! k = Some v /\ Forall (fun it => ~ sets_key k it) items).
Proof.
  revert jar. induction items as [|x tl IH]; intros jar.
  - exists jar. split; [done|]. intros k v. split.
    + intros H. right. by split.
    + intros [(before & item & after & H & _)|[H _]]; [|done].
      by destruct before.
  - cbn [cookie_loop]. rewrite cookie_step_find. cbn [mbind result_bind].
    set (jar1 := match PyStr.find "=" x with
                 | Some (k, v) => <[k:=v]> jar | None => jar end).
    destruct (IH jar1) as (jar' & Hloop & Hlook). exists jar'.
    split; [done|]. intros k v. rewrite Hlook. clear Hlook Hloop IH.
    split.
    + intros [(before & item & after & -> & Hf & Ha)|[Hj Ha]].
      { left. by exists (x :: before), item, after. }
      subst jar1. destruct (PyStr.find "=" x) as [[k' v']|] eqn:Hx.
      * destruct (decide (k' = k)) as [->|Hne].
        -- rewrite lookup_insert_eq in Hj. injection Hj as ->.
           left. by exists [], x, tl.
        -- rewrite lookup_insert_ne in Hj by done. right. split; [done|].
           constructor; [|done]. unfold sets_key. rewrite Hx. simpl. congruence.
      * right. split; [done|]. constructor; [|done].
        unfold sets_key. by rewrite Hx.
    + intros [(before & item & after & Heq & Hf & Ha)|[Hj Ha]].
      * destruct before as [|y before]; simplify_eq/=.
        -- right. split; [|done]. subst jar1. rewrite Hf.
           by rewrite lookup_insert_eq.
        -- left. by exists before, item, after.
      * apply Forall_cons in Ha as [Hx Ha]. right. split; [|done].
        subst jar1. unfold sets_key in Hx.
        destruct (PyStr.find "=" x) as [[k' v']|]; [|done].
        rewrite lookup_insert_ne; [done|]. simpl in Hx. congruence.
Qed.

Lemma sets_key_iff k item :
  PyStr.contains "=" k = false ->
  sets_key k item <-> exists v, item = k +:+ "=" +:+ v.
Proof.
  intros Hk. unfold sets_key. split.
  - destruct (PyStr.find "=" item) as [[k' v']|] eqn:Hf; [|done].
    intros [= ->]. exists v'. by apply find_eq_iff in Hf as [? _].
  - intros [v ->].
    assert (PyStr.find "=" (k +:+ "=" +:+ v) = Some (k, v)) as ->; [|done].
    by apply find_eq_iff.
Qed.

End Cookies.

(** A value that is not quoted is stored as it is. *)
Lemma jar_value_plain v :
  PyStr.startswith v DQUOTE && PyStr.endswith v DQUOTE = false -> jar_value v = v.
Proof. unfold jar_value. by intros ->. Qed.

(** C7: [from_cookie_string] splits the cookie string on ["; "] (the
    fields joined by ["; "] give the string back, and none contains
    ["; "]); a field without [=] leaves the dictionary as it is, a field
    [k=v] with no [=] in [k] sets [k] to [v], whatever [v] holds; no
    field makes the call raise.  So the dictionary parsed maps [k] to [v]
    exactly when the last field that assigns [k] is [k=v]; it is what the
    constructor receives, and the jar of the session holds its cookies as
    [set_cookie] stores them, a value that is not quoted unchanged.  The
    example string parses to three cookies. *)
Theorem from_cookie_string_parses (default_headers : gmap string string) :
  (forall s,
      PyStr.join "; " (PyStr.split "; " s) = s
      /\ Forall (fun seg => PyStr.contains "; " seg = false) (PyStr.split "; " s))
  /\ (forall jar seg,
        PyStr.contains "=" seg = false -> cookie_step jar seg = Ok jar)
  /\ (forall jar k v,
        PyStr.contains "=" k = false ->
        cookie_step jar (k +:+ "=" +:+ v) = Ok (<[k := v]> jar))
  /\ (forall s, exists parsed,
        cookie_loop ∅ (PyStr.split "; " s) = Ok parsed
        /\ from_cookie_string default_headers s = Ok (init default_headers parsed)
        /\ cookies (session (init default_headers parsed)) = jar_value <$> parsed
        /\ forall k v, parsed !! k = Some v <->
             exists before after,
               PyStr.split "; " s = (before ++ (k +:+ "=" +:+ v) :: after)%list
               /\ PyStr.contains "=" k = false
               /\ Forall (fun seg => forall v', seg <> k +:+ "=" +:+ v') after)
  /\ (forall v,
        PyStr.startswith v DQUOTE && PyStr.endswith v DQUOTE = false ->
        jar_value v = v)
  /\ (exists client,
        cookie_loop ∅ (PyStr.split "; " "a=1; b=2; malformed; c=3") =
          Ok {[ "a" := "1"; "b" := "2"; "c" := "3" ]}
        /\ from_cookie_string default_headers "a=1; b=2; malformed; c=3" = Ok client
        /\ cookies (session client) = {[ "a" := "1"; "b" := "2"; "c" := "3" ]}).
Proof.
  split_and!.
  - intros s. split; [apply PyStrFacts.join_split|apply PyStrFacts.split_sep_free].
  - intros jar seg Hseg. rewrite cookie_step_find.
    rewrite PyStrFacts.contains_find in Hseg.
    by destruct (PyStr.find "=" seg) as [[??]|].
  - intros jar k v Hk. rewrite cookie_step_find.
    assert (PyStr.find "=" (k +:+ "=" +:+ v) = Some (k, v)) as ->; [|done].
    by apply find_eq_iff.
  - intros s. unfold from_cookie_string.
    destruct (cookie_loop_lookup (PyStr.split "; " s) ∅) as (jar & -> & Hjar).
    exists jar. split_and!; [done..| |].
    { cbn [init session cookies]. by rewrite (right_id_L ∅ (∪)). }
    intros k v. rewrite Hjar. split.
    + intros [(before & item & after & Hs & Hf & Ha)|[H _]]; [|by rewrite lookup_empty in H].
      apply find_eq_iff in Hf as [-> Hk]. exists before, after.
      split_and!; [done..|].
      eapply Forall_impl; [exact Ha|]. intros seg Hseg v' ->.
      apply Hseg, sets_key_iff; eauto.
    + intros (before & after & Hs & Hk & Ha). left.
      exists before, (k +:+ "=" +:+ v), after. split_and!; [done| |].
      * by apply find_eq_iff.
      * eapply Forall_impl; [exact Ha|]. intros seg Hseg Hset.
        apply sets_key_iff in Hset as [v' ->]; [|done]. by eapply Hseg.
  - apply jar_value_plain.
  - eexists. split_and!; [|reflexivity|]; vm_compute; reflexivity.
Qed.

(** ** The extraction loop *)

Section Walk.

Variable replace_charrefs : string -> string.
Variables on_speaker on_text : string -> list string.

Local Abbreviation walk := (walk replace_charrefs on_speaker on_text).
Local Abbreviation render := (render on_speaker on_text).
Local Abbreviation segments := (segments replace_charrefs).
Local Abbreviation paragraphs := (paragraphs replace_charrefs).

(** The loop, one iteration unfolded. *)
Lemma walk_step children i out :
  walk children i out =
  match children !! i with
  | None => out
  | Some child =>
      if is_named "h3" child then
        let out := (out ++ on_speaker (get_text_strip child))%list in
        match children !! (i + 1) with
        | Some content_div =>
            walk children (i + 2)
              (if is_named "div" content_div
               then (out ++ mbind on_text (paragraphs content_div))%list
               else out)
        | None => out
        end
      else walk children (i + 1) out
  end.
Proof.
  rewrite walk_equation_1.
  destruct (inspect (children !! i)) as [[child|] Hc]; simpl; rewrite Hc; [|done].
  destruct (is_named "h3" child); [|done].
  destruct (children !! (i + 1)) as [d|] eqn:Hd.
  - by replace (i + 1 + 1) with (i + 2) by lia.
  - rewrite walk_equation_1.
    destruct (inspect (children !! (i + 1))) as [[child'|] Hc']; [congruence|done].
Qed.

Lemma render_cons speaker ps segs :
  render ((speaker, ps) :: segs) =
  (on_speaker speaker ++ mbind on_text ps ++ render segs)%list.
Proof. unfold Extractor.render. simpl. by rewrite <- (assoc_L (++)). Qed.

(** The loop outputs the rendering of the segments of the children
    from the cursor on: it ends on every list of children, from every
    cursor. *)
Lemma walk_segments children i out :
  walk children i out = (out ++ render (segments (drop i children)))%list.
Proof.
  remember (List.length children - i) as n eqn:Hn. revert i out Hn.
  induction (lt_wf n) as [n _ IH]; intros i out ->.
  rewrite walk_step. destruct (children !! i) as [child|] eqn:Hc.
  - pose proof (lookup_lt_Some _ _ _ Hc) as Hlt.
    rewrite (drop_S _ _ _ Hc). cbn [Extractor.segments].
    destruct (is_named "h3" child).
    + replace (i + 1) with (S i) by lia.
      destruct (children !! S i) as [d|] eqn:Hd.
      * rewrite (drop_S _ _ _ Hd), render_cons.
        pose proof (lookup_lt_Some _ _ _ Hd) as Hlt'.
        rewrite (IH (List.length children - (i + 2))) by lia.
        replace (i + 2) with (S (S i)) by lia.
        destruct (is_named "div" d); simpl; by rewrite <- !(assoc_L (++)).
      * rewrite (drop_ge _ (S i)) by (by apply lookup_ge_None).
        rewrite render_cons. simpl. by rewrite !(right_id_L [] (++)).
    + rewrite (IH (List.length children - (i + 1))) by lia.
      by replace (i + 1) with (S i) by lia.
  - rewrite drop_ge by (by apply lookup_ge_None). simpl.
    by rewrite (right_id_L [] (++)).
Qed.

Corollary walk_all children :
  walk children 0 [] = render (segments children).
Proof. by rewrite walk_segments, drop_0. Qed.

End Walk.

(** ** Searching the tree *)

Lemma descendants_Tag nm cl cs :
  descendants (Tag nm cl cs) = cs ≫= (fun c => c :: descendants c).
Proof.
  cbn [descendants]. induction cs as [|c cs IH]; [done|].
  cbn [mbind list_bind]. by rewrite IH.
Qed.

Lemma find_None n nm cls :
  find n nm cls = None <->
  Forall (fun x => matches nm cls x = false) (descendants n).
Proof.
  unfold find. induction (descendants n) as [|x l IH]; cbn [List.find].
  - split; [constructor|done].
  - destruct (matches nm cls x) eqn:Hx.
    + split; [done|]. intros [Hx' _]%Forall_cons. congruence.
    + rewrite IH. split; [by constructor|]. by intros [_ ?]%Forall_cons.
Qed.

(** [find] returns the first match in document order. *)
Lemma find_Some n nm cls c :
  find n nm cls = Some c <->
  exists before after,
    descendants n = (before ++ c :: after)%list
    /\ Forall (fun x => matches nm cls x = false) before
    /\ matches nm cls c = true.
Proof.
  unfold find. induction (descendants n) as [|x l IH]; cbn [List.find].
  - split; [done|]. intros (before & after & H & _). by destruct before.
  - destruct (matches nm cls x) eqn:Hx.
    + split.
      * intros [= ->]. by exists [], l.
      * intros (before & after & H & Hb & Hc).
        destruct before as [|y before]; simplify_eq/=; [done|].
        apply Forall_cons in Hb as [Hy _]. congruence.
    + rewrite IH. split.
      * intros (before & after & -> & Hb & Hc).
        exists (x :: before), after. split_and!; [done| |done]. by constructor.
      * intros (before & after & H & Hb & Hc).
        destruct before as [|y before]; simplify_eq/=; [congruence|].
        apply Forall_cons in Hb as [_ Hb]. by exists before, after.
Qed.

(** A heading that holds one text node: [get_text(strip=True)] is that
    text, trimmed. *)
Lemma get_text_strip_h3_of s : get_text_strip (h3_of s) = PyStr.strip s.
Proof.
  unfold get_text_strip, all_strings, h3_of. rewrite descendants_Tag. simpl.
  destruct (PyStr.strip s) eqn:Hs; by simpl.
Qed.

Lemma find_all_p_of ts cl :
  find_all (Tag "div" cl (p_of <$> ts)) "p" = p_of <$> ts.
Proof.
  unfold find_all. rewrite descendants_Tag.
  induction ts as [|t ts IH]; [done|].
  cbn [fmap list_fmap mbind list_bind]. cbn [app List.filter p_of is_named descendants].
  rewrite IH. by rewrite bool_decide_eq_true_2.
Qed.

Lemma get_text_p_of t : get_text (p_of t) = t.
Proof. done. Qed.

(** ** The transcript extractor *)

Section Extraction.

Variable html_parser : string -> list node.
Variable replace_charrefs : string -> string.

Local Abbreviation BeautifulSoup := (BeautifulSoup html_parser).
Local Abbreviation unescape := (unescape replace_charrefs).
Local Abbreviation paragraphs := (paragraphs replace_charrefs).
Local Abbreviation segments := (segments replace_charrefs).
Local Abbreviation walk := (walk replace_charrefs).
Local Abbreviation parse_transcript_html :=
  (parse_transcript_html html_parser replace_charrefs).
Local Abbreviation print_transcript :=
  (print_transcript html_parser replace_charrefs).

Lemma segments_interleave pairs :
  Forall (fun hd => is_named "h3" hd.1 = true /\ is_named "div" hd.2 = true) pairs ->
  segments (interleave pairs) =
  (fun hd => (get_text_strip hd.1, paragraphs hd.2)) <$> pairs.
Proof.
  induction 1 as [|[h d] pairs [Hh Hd] _ IH]; [done|].
  unfold interleave in *.
  cbn [mbind list_bind app fst snd Extractor.segments fmap list_fmap] in *.
  by rewrite Hh, Hd, IH.
Qed.

Lemma paragraphs_p_of ts cl :
  paragraphs (Tag "div" cl (p_of <$> ts)) = unescape <$> ts.
Proof.
  unfold Extractor.paragraphs. rewrite find_all_p_of, <- list_fmap_compose.
  by apply list_fmap_ext.
Qed.

(** What the two scripts emit for a transcript body, line by line. *)
Lemma render_lines (body : list (string * list string)) :
  render append_speaker append_text body =
  body ≫= (fun seg => (newline +:+ "[" +:+ seg.1 +:+ "]" +:+ newline) :: seg.2).
Proof.
  unfold Extractor.render. induction body as [|[speaker ps] body IH]; [done|].
  cbn [mbind list_bind fst snd]. rewrite IH. cbn [append_speaker app]. do 2 f_equal.
  induction ps as [|t ps IHps]; [done|]. cbn [mbind list_bind append_text app] in *.
  by rewrite IHps.
Qed.

Lemma render_prints (body : list (string * list string)) :
  render print_speaker print_text body =
  body ≫= (fun seg =>
    (newline +:+ "[" +:+ seg.1 +:+ "]") :: (seg.2 ≫= (fun text => [text; EmptyString]))).
Proof.
  unfold Extractor.render. induction body as [|[speaker ps] body IH]; [done|].
  cbn [mbind list_bind fst snd]. by rewrite IH.
Qed.

(** C1: on a grid whose children alternate a heading and a content
    block, the extraction yields one segment per heading, in document
    order: the heading's text with the white space around it removed,
    paired with the unescaped text of every paragraph of the block that
    follows it.  [parse_transcript_html] returns, joined by line breaks,
    the line [[speaker]] between two line breaks and then one line per
    paragraph; [main] prints the same, each paragraph followed by an
    empty line.  The text of a heading that holds one string is that
    string without the white space characters at its two ends, and the
    text of a paragraph is rewritten by the substitution of character
    references exactly when it holds an ampersand. *)
Theorem extraction_of_alternating_grid (pairs : list (node * node)) :
  Forall (fun hd => is_named "h3" hd.1 = true /\ is_named "div" hd.2 = true) pairs ->
  let body :=
    (fun hd => (get_text_strip hd.1,
                (fun p => unescape (get_text p)) <$> find_all hd.2 "p")) <$> pairs in
  segments (interleave pairs) = body
  /\ (forall on_speaker on_text,
        walk on_speaker on_text (interleave pairs) 0 [] =
        render on_speaker on_text body)
  /\ (forall html_content transcript_grid grid_div,
        find (BeautifulSoup html_content) "div" "r6o-annotatable" = Some transcript_grid ->
        find transcript_grid "div" "grid" = Some grid_div ->
        children grid_div = interleave pairs ->
        parse_transcript_html html_content =
          PyStr.join newline
            (body ≫= (fun seg =>
               (newline +:+ "[" +:+ seg.1 +:+ "]" +:+ newline) :: seg.2))
        /\ print_transcript html_content =
          body ≫= (fun seg =>
            (newline +:+ "[" +:+ seg.1 +:+ "]")
              :: (seg.2 ≫= (fun text => [text; EmptyString]))))
  /\ (forall s,
        let speaker := get_text_strip (h3_of s) in
        (exists pre post,
            Forall (.∈ PyStr.WHITESPACE) pre /\ Forall (.∈ PyStr.WHITESPACE) post
            /\ s = PyStr.encode pre +:+ speaker +:+ PyStr.encode post)
        /\ (forall cp, cp ∈ PyStr.WHITESPACE ->
              PyStr.startswith speaker (PyStr.utf8 cp) = false
              /\ PyStr.endswith speaker (PyStr.utf8 cp) = false))
  /\ (forall ts,
        paragraphs (div_of (p_of <$> ts)) =
        (fun t => if PyStr.contains "&" t then replace_charrefs t else t) <$> ts).
Proof.
  intros Hpairs body.
  assert (segments (interleave pairs) = body) as Hseg by by apply segments_interleave.
  split_and!.
  - done.
  - intros os ot. by rewrite walk_all, Hseg.
  - intros html_content transcript_grid grid_div Hgrid Hdiv Hch.
    unfold Extractor.parse_transcript_html, Extractor.print_transcript.
    rewrite Hgrid, Hdiv, Hch. by rewrite !walk_all, Hseg, render_lines, render_prints.
  - intros s. cbn zeta. rewrite get_text_strip_h3_of. apply PyStrFacts.strip_spec.
  - intros ts. apply paragraphs_p_of.
Qed.


(** C8: without an annotatable container, or when the annotatable
    container (the first one in document order) has no grid container
    below it, the extracted text is empty and nothing of a transcript is
    printed. *)
Theorem extraction_without_containers (html_content : string) :
  (Forall (fun n => matches "div" "r6o-annotatable" n = false)
          (descendants (BeautifulSoup html_content)) ->
   parse_transcript_html html_content = EmptyString
   /\ print_transcript html_content =
        ["Could not find transcript content in the page"])
  /\ (forall before container after,
        descendants (BeautifulSoup html_content) = (before ++ container :: after)%list ->
        Forall (fun n => matches "div" "r6o-annotatable" n = false) before ->
        matches "div" "r6o-annotatable" container = true ->
        Forall (fun n => matches "div" "grid" n = false) (descendants container) ->
        parse_transcript_html html_content = EmptyString
        /\ print_transcript html_content = []).
Proof.
  unfold Extractor.parse_transcript_html, Extractor.print_transcript. split.
  - intros Habsent. apply find_None in Habsent. by rewrite Habsent.
  - intros before container after Hdesc Hbefore Hmatch Hgrid.
    assert (find (BeautifulSoup html_content) "div" "r6o-annotatable" = Some container)
      as -> by (apply find_Some; eauto).
    apply find_None in Hgrid. by rewrite Hgrid.
Qed.

End Extraction.

(** ** The mappers *)

Lemma rmap_Ok {A B} (f : A -> result B) (l : list A) :
  Forall (fun x => exists y, f x = Ok y) l ->
  exists ys, rmap f l = Ok ys /\ List.length ys = List.length l.
Proof.
  induction 1 as [|x l [y Hy] _ (ys & Hys & Hlen)]; [by exists []|].
  exists (y :: ys). cbn [rmap]. rewrite Hy. cbn [mbind result_bind].
  rewrite Hys. simpl. by rewrite Hlen.
Qed.

Lemma rmap_Raise {A B} (f : A -> result B) (l : list A) (x : A) (e : exn) :
  x ∈ l -> f x = Raise e ->
  exists x' e', x' ∈ l /\ f x' = Raise e' /\ rmap f l = Raise e'.
Proof.
  induction 1 as [x l|x y l Hin IH]; intros Hx; cbn [rmap].
  - exists x, e. rewrite Hx. split_and!; [constructor|done..].
  - destruct (f y) as [b|e'] eqn:Hy.
    + destruct (IH Hx) as (x' & e' & Hin' & Hx' & Hr).
      exists x', e'. cbn [mbind result_bind]. rewrite Hr.
      split_and!; [by constructor|done..].
    + exists y, e'. split_and!; [constructor|done..].
Qed.

Lemma subscript_Ok v k x : subscript v k = Ok x <-> field v k = Some x.
Proof.
  destruct v as [| | | | |?|d]; cbn [subscript field]; try by split.
  destruct (d !! k); split; congruence.
Qed.

Lemma subscript_Raise v k e : subscript v k = Raise e -> mapping_error e.
Proof.
  destruct v as [| | | | |?|d]; cbn [subscript]; try (intros [= <-]; by left).
  destruct (d !! k); [done|]. intros [= <-]. right. eauto.
Qed.

Lemma subscript_field_None v k :
  field v k = None -> exists e, subscript v k = Raise e.
Proof.
  destruct v as [| | | | |?|d]; cbn [subscript field]; eauto.
  intros ->. eauto.
Qed.

Lemma get_default_Ok v k dflt x :
  get_default v k dflt = Ok x -> x = default dflt (field v k).
Proof. destruct v; cbn [get_default field]; congruence. Qed.

Lemma get_default_dict v k dflt x :
  is_Some (field v k) -> get_default v x dflt = Ok (default dflt (field v x)).
Proof. destruct v; cbn [field]; by intros [? ?]. Qed.

Lemma lookup_path_1 v k : lookup_path v [k] = field v k.
Proof. cbn [lookup_path]. by destruct (field v k). Qed.

Lemma lookup_path_2 v k1 k2 :
  lookup_path v [k1; k2] = field v k1 ≫= fun c => field c k2.
Proof.
  cbn [lookup_path]. destruct (field v k1) as [c|]; [|done]. simpl.
  by destruct (field c k2).
Qed.

(** An item maps to a record exactly when it has the required fields:
    no required field is ever defaulted. *)
Lemma transcript_of_item_Ok item :
  has_required item ->
  exists t, transcript_of_item item = Ok t
    /\ Transcript.ticker t = default (PyStr "") (field item "ticker")
    /\ Transcript.exchange t = default PyNone (field item "exchange")
    /\ Transcript.market_cap t = default PyNone (field item "marketCap").
Proof.
  unfold has_required, REQUIRED. rewrite !Forall_cons.
  rewrite !lookup_path_1, !lookup_path_2.
  intros ([i Hi] & [cn Hcn] & [ck Hck] & [y Hy] & [q Hq] & [ti Hti] & [d Hd] & [u Hu] & _).
  destruct item as [| | | | |?|o]; try done.
  destruct (field (PyDict o) "company") as [c|] eqn:Hc; [|done].
  cbn [mbind option_bind] in Hcn, Hck.
  destruct (field c "name") as [cn'|] eqn:Hcn'; [|done].
  destruct (field c "cik") as [ck'|] eqn:Hck'; [|done].
  unfold transcript_of_item.
  repeat match goal with
    | H : field ?v ?k = Some _ |- _ =>
        apply subscript_Ok in H; rewrite H; clear H; cbn [mbind result_bind]
    end.
  cbn [get_default mbind result_bind]. eexists. split; [reflexivity|]. done.
Qed.

Lemma transcript_of_item_Raise item e :
  transcript_of_item item = Raise e -> mapping_error e.
Proof.
  unfold transcript_of_item.
  destruct item as [| | | | |?|o];
    try (cbn [subscript mbind result_bind]; intros [= <-]; by left).
  repeat match goal with
    | |- context [subscript ?v ?k] =>
        let H := fresh "Hsub" in
        destruct (subscript v k) eqn:H; cbn [mbind result_bind get_default];
        [|intros [= <-]; by eapply subscript_Raise]
    end.
  done.
Qed.

(** With a required field missing the item maps to no record. *)
Lemma transcript_of_item_lacks item :
  lacks_required item -> exists e, transcript_of_item item = Raise e.
Proof.
  intros Hlack. destruct (transcript_of_item item) as [t|e] eqn:Ht; [|eauto].
  exfalso. revert Hlack. unfold lacks_required, REQUIRED.
  rewrite !Exists_cons, Exists_nil, !lookup_path_1, !lookup_path_2.
  revert Ht. unfold transcript_of_item.
  destruct item as [| | | | |?|o]; try done. cbn [get_default].
  repeat match goal with
    | |- context [subscript ?v ?k] =>
        let H := fresh "Hsub" in
        destruct (subscript v k) eqn:H; cbn [mbind result_bind]; [|done];
        apply subscript_Ok in H; rewrite ?H
    end.
  intros _. cbn [mbind option_bind]. intuition congruence.
Qed.

Lemma subscript_dict_Raise d k e : subscript (PyDict d) k = Raise e -> e = KeyError k.
Proof. cbn [subscript]. destruct (d !! k); congruence. Qed.

(** On an object whose [company], when present, is an object, the
    exception is a [KeyError] naming the first missing key. *)
Lemma transcript_of_item_KeyError o e :
  (forall c, o !! "company" = Some c -> exists dc, c = PyDict dc) ->
  transcript_of_item (PyDict o) = Raise e ->
  exists k, e = KeyError k.
Proof.
  intros Hcompany. unfold transcript_of_item. cbn [get_default].
  destruct (subscript (PyDict o) "company") as [c|e'] eqn:Hc.
  - assert (exists dc, c = PyDict dc) as [dc ->].
    { apply Hcompany. by apply subscript_Ok in Hc. }
    repeat match goal with
      | |- context [subscript ?v ?k] =>
          let H := fresh "Hsub" in
          destruct (subscript v k) eqn:H; cbn [mbind result_bind];
          [|intros [= <-]; apply subscript_dict_Raise in H; eauto]
      end.
    done.
  - apply subscript_dict_Raise in Hc as ->.
    destruct (subscript (PyDict o) "id") as [i|e''] eqn:Hi; cbn [mbind result_bind].
    + intros [= <-]. eauto.
    + intros [= <-]. apply subscript_dict_Raise in Hi. eauto.
Qed.

(** ** The request layer and the client's calls *)

Section ClientProperties.

Variable session_get : Session -> string -> gmap string pyval -> result Response.
Variable response_json : string -> option pyval.
Variable urljoin : string -> string -> string.
Variable int_of_str : string -> option Z.

Local Abbreviation _request := (_request session_get response_json urljoin).
Local Abbreviation get_transcripts := (get_transcripts session_get response_json urljoin).
Local Abbreviation search_company := (search_company session_get response_json urljoin).
Local Abbreviation find_company_cik :=
  (find_company_cik session_get response_json urljoin int_of_str).
Local Abbreviation py_int := (py_int int_of_str).

(** [_request], path by path. *)
Lemma request_cases self endpoint params :
  _request self endpoint params =
  let get := EvGet (session self) (urljoin BASE_URL endpoint) params in
  match session_get (session self) (urljoin BASE_URL endpoint) params with
  | Raise e => ([get], Raise e)
  | Ok response =>
      match raise_for_status response with
      | Raise e => ([get], Raise e)
      | Ok _ =>
          if looks_like_html (text response)
          then ([get], Raise (ValueError SESSION_EXPIRED))
          else ([get; EvJson (text response)],
                match response_json (text response) with
                | Some v => Ok v
                | None => Raise JSONDecodeError
                end)
      end
  end.
Proof.
  unfold Client._request, do_get, do_json, lift. cbn [mbind io_bind].
  destruct (session_get _ _ _) as [response|e]; [|done].
  destruct (raise_for_status response); [|done].
  by destruct (looks_like_html (text response)).
Qed.

Lemma raise_for_status_Raise response e :
  raise_for_status response = Raise e -> e = HTTPError (status_code response).
Proof. unfold raise_for_status. case_match; congruence. Qed.

Lemma request_sends_one self endpoint params :
  requests_sent (_request self endpoint params).1 =
  [(urljoin BASE_URL endpoint, params)].
Proof.
  rewrite request_cases. cbn zeta.
  repeat case_match; done.
Qed.

Lemma bind_lift {A B} (c : io A) (f : A -> result B) :
  (c ≫= fun a => lift (f a)) = (c.1, c.2 ≫= f).
Proof.
  destruct c as [tr [a|e]]; cbn [mbind io_bind result_bind lift fst snd]; [|done].
  by rewrite (right_id_L [] (++)).
Qed.

Lemma get_transcripts_request self page company_id :
  get_transcripts self page company_id =
  let c := _request self "transcripts" (transcripts_params page company_id) in
  (c.1, c.2 ≫= transcripts_of_payload).
Proof. unfold Client.get_transcripts. cbn zeta. apply bind_lift. Qed.

Lemma search_company_request self query :
  search_company self query =
  let c := _request self "search/company" {["q" := PyStr query]} in
  (c.1, c.2 ≫= companies_of_payload).
Proof. unfold Client.search_company. apply bind_lift. Qed.

(** The session-expired error and the decoder's error are different
    exceptions, though an [except ValueError] catches either. *)
Lemma session_expired_is_not_decode_error :
  ValueError SESSION_EXPIRED <> JSONDecodeError
  /\ isinstance_ValueError (ValueError SESSION_EXPIRED) = true
  /\ isinstance_ValueError JSONDecodeError = true.
Proof. done. Qed.

(** C2 (as amended): when the response passes the status check and its
    body begins with [<!DOCTYPE html>] or [<html], the call raises the
    session-expired [ValueError], which is not the decoder's
    [JSONDecodeError]; when the status is an error status the
    [HTTPError] is raised first, whatever the body.  Either way a body
    that begins with such a marker is never handed to the decoder, and
    whatever body is decoded does not begin with one. *)
Theorem html_body_raises_session_expired self endpoint params response :
  session_get (session self) (urljoin BASE_URL endpoint) params = Ok response ->
  looks_like_html (text response) = true ->
  (raise_for_status response = Ok tt ->
     (_request self endpoint params).2 = Raise (ValueError SESSION_EXPIRED))
  /\ (forall e, raise_for_status response = Raise e ->
        e = HTTPError (status_code response)
        /\ (_request self endpoint params).2 = Raise e)
  /\ (_request self endpoint params).2 <> Raise JSONDecodeError
  /\ ValueError SESSION_EXPIRED <> JSONDecodeError
  /\ bodies_decoded (_request self endpoint params).1 = []
  /\ (forall rest, looks_like_html ("<!DOCTYPE html>" +:+ rest) = true)
  /\ (forall self' endpoint' params' body,
        body ∈ bodies_decoded (_request self' endpoint' params').1 ->
        looks_like_html body = false).
Proof.
  intros Hget Hhtml. rewrite request_cases, Hget, Hhtml. cbn zeta. split_and!.
  - by intros ->.
  - intros e He. rewrite He. split; [by apply raise_for_status_Raise|done].
  - destruct (raise_for_status response) as [[]|e] eqn:He; [done|].
    apply raise_for_status_Raise in He as ->. done.
  - done.
  - by destruct (raise_for_status response).
  - intros rest. unfold looks_like_html, PyStr.startswith.
    by rewrite PyStrFacts.prefix_app.
  - intros self' endpoint' params' body. rewrite request_cases. cbn zeta.
    repeat case_match; cbn [bodies_decoded omap list_omap fst];
      rewrite ?elem_of_nil, ?list_elem_of_singleton; try done.
    all: by intros ->.
Qed.

Lemma transcripts_of_payload_items payload items :
  field payload "data" = Some (PyList items) ->
  transcripts_of_payload payload =
  rmap transcript_of_item items ≫= fun transcripts =>
    Ok {| total := default (PyInt 0) (field payload "total"); data := transcripts |}.
Proof.
  destruct payload as [| | | | |?|d]; try done. cbn [field].
  intros Hd. unfold transcripts_of_payload. cbn [get_default]. rewrite Hd.
  done.
Qed.

(** C3: an item of the decoded listing that lacks a required field makes
    [get_transcripts] raise the exception of the failed field access; no
    record with a defaulted field is returned.  The exception is a
    [KeyError] when the item is an object whose [company], if present, is
    an object. *)
Theorem missing_required_field_raises self page company_id payload items item :
  (_request self "transcripts" (transcripts_params page company_id)).2 = Ok payload ->
  field payload "data" = Some (PyList items) ->
  item ∈ items ->
  lacks_required item ->
  (exists e, transcript_of_item item = Raise e
     /\ mapping_error e
     /\ forall o, item = PyDict o ->
          (forall c, o !! "company" = Some c -> exists dc, c = PyDict dc) ->
          exists k, e = KeyError k)
  /\ (exists e, (get_transcripts self page company_id).2 = Raise e
        /\ mapping_error e).
Proof.
  intros Hreq Hdata Hin Hlack.
  destruct (transcript_of_item_lacks item Hlack) as [e He]. split.
  - exists e. split_and!; [done|by eapply transcript_of_item_Raise|].
    intros o -> Hcompany. by eapply transcript_of_item_KeyError.
  - destruct (rmap_Raise transcript_of_item items item e Hin He)
      as (x' & e' & _ & Hx' & Hmap).
    exists e'. split; [|by eapply transcript_of_item_Raise].
    rewrite get_transcripts_request. cbn zeta. cbn [snd]. rewrite Hreq.
    cbn [mbind result_bind].
    rewrite (transcripts_of_payload_items payload items Hdata), Hmap. done.
Qed.

(** C10: on an item with the required fields the ticker lookup never
    fails: a missing [ticker] becomes the empty string, and a missing
    [exchange] or [marketCap] becomes [None]. *)
Theorem missing_ticker_defaults item :
  has_required item ->
  exists t, transcript_of_item item = Ok t
    /\ (field item "ticker" = None -> Transcript.ticker t = PyStr "")
    /\ (forall v, field item "ticker" = Some v -> Transcript.ticker t = v)
    /\ (field item "exchange" = None -> Transcript.exchange t = PyNone)
    /\ (field item "marketCap" = None -> Transcript.market_cap t = PyNone).
Proof.
  intros Hreq. destruct (transcript_of_item_Ok item Hreq) as (t & Ht & Htk & Hex & Hmc).
  exists t. split_and!; [done|..].
  - intros H. by rewrite Htk, H.
  - intros v H. by rewrite Htk, H.
  - intros H. by rewrite Hex, H.
  - intros H. by rewrite Hmc, H.
Qed.

(** C4: [find_company_cik] sends the search and nothing else; on a
    non-empty result it returns [int] of the first company's cik, and it
    returns [None] exactly when the search returns the empty list. *)
Theorem find_company_cik_first_result self query :
  (find_company_cik self query).1 = (search_company self query).1
  /\ (forall c rest,
        (search_company self query).2 = Ok (c :: rest) ->
        (find_company_cik self query).2 =
          py_int (Company.cik c) ≫= fun z => Ok (Some z))
  /\ (forall c rest z,
        (search_company self query).2 = Ok (c :: rest) ->
        Company.cik c = PyInt z ->
        (find_company_cik self query).2 = Ok (Some z))
  /\ ((find_company_cik self query).2 = Ok None <->
      (search_company self query).2 = Ok [])
  /\ (forall e,
        (search_company self query).2 = Raise e ->
        (find_company_cik self query).2 = Raise e).
Proof.
  unfold Client.find_company_cik.
  destruct (search_company self query) as [tr [[|c rest]|e]];
    cbn [mbind io_bind mret io_ret lift fst snd].
  - rewrite (right_id_L [] (++)). by split_and!.
  - destruct (py_int (Company.cik c)) as [z|e] eqn:Hz;
      cbn [mbind io_bind mret io_ret lift fst snd result_bind];
      rewrite ?(right_id_L [] (++)).
    all: split_and!; [first [done|by rewrite (right_id_L [] (++))]| | |by split|done].
    all: intros; simplify_eq/=; rewrite ?Hz; try done.
    all: match goal with H : Company.cik _ = PyInt _ |- _ => rewrite H in Hz end.
    all: cbn [Client.py_int] in Hz; congruence.
  - split_and!; [done..|by split|by intros e0 [= ->]].
Qed.


(** C6: [get_transcripts] sends one GET, to the transcripts endpoint,
    and its parameters hold [companyId] exactly when [company_id] is
    truthy: for [None] and for [0] they are [{"page": page}] alone. *)
Theorem company_filter_only_when_truthy self page company_id :
  requests_sent (get_transcripts self page company_id).1 =
    [(urljoin BASE_URL "transcripts", transcripts_params page company_id)]
  /\ (is_Some (transcripts_params page company_id !! "companyId") <->
      truthy company_id = true)
  /\ (truthy company_id = false <-> company_id = None \/ company_id = Some 0%Z)
  /\ (truthy company_id = false ->
      transcripts_params page company_id = {[ "page" := PyInt page ]})
  /\ (forall c, company_id = Some c -> c <> 0%Z ->
      transcripts_params page company_id =
        <[ "companyId" := PyInt c ]> {[ "page" := PyInt page ]}).
Proof.
  split_and!.
  - rewrite get_transcripts_request. cbn zeta. cbn [fst]. apply request_sends_one.
  - unfold transcripts_params. destruct (truthy company_id).
    + rewrite lookup_insert_eq. by split.
    + rewrite lookup_singleton_ne by done. split; [by intros [? ?]|done].
  - destruct company_id as [c|]; cbn [truthy].
    + rewrite negb_false_iff, Z.eqb_eq. split; [intros ->; by right|].
      by intros [|[= ->]].
    + split; [by left|done].
  - unfold transcripts_params. by intros ->.
  - intros c -> Hc. unfold transcripts_params. cbn [truthy py_of_optional].
    by rewrite (proj2 (Z.eqb_neq c 0) Hc).
Qed.

End ClientProperties.

(** * The statements at concrete inputs *)

(** The grid of the specification's example, whatever the parser and the
    substitution of character references: its paragraphs hold no
    ampersand. *)
Example extraction_example (rc : string -> string) :
  segments rc Demo.grid = [("Alice", ["Hi"; "There"]); ("Bob", ["Yo"])]
  /\ parse_transcript_html (Demo.html_parser (Demo.page Demo.grid)) rc "<html>" =
     PyStr.join newline
       [newline +:+ "[Alice]" +:+ newline; "Hi"; "There";
        newline +:+ "[Bob]" +:+ newline; "Yo"].
Proof. split; reflexivity. Qed.

(** C1 at a grid whose first heading is padded with white space and
    whose first paragraph holds a character reference, and at the grid of
    the specification's example. *)
Lemma extraction_of_alternating_grid_witness :
  segments Demo.decode_amp Demo.padded_grid =
    [("Alice", ["Q&A"; " Hi "]); ("Bob", ["Yo"])]
  /\ parse_transcript_html (Demo.html_parser (Demo.page Demo.padded_grid))
       Demo.decode_amp "<html>" =
     PyStr.join newline
       [newline +:+ "[Alice]" +:+ newline; "Q&A"; " Hi ";
        newline +:+ "[Bob]" +:+ newline; "Yo"]
  /\ print_transcript (Demo.html_parser (Demo.page Demo.padded_grid))
       Demo.decode_amp "<html>" =
     [newline +:+ "[Alice]"; "Q&A"; EmptyString; " Hi "; EmptyString;
      newline +:+ "[Bob]"; "Yo"; EmptyString]
  /\ segments Demo.replace_charrefs Demo.grid =
     [("Alice", ["Hi"; "There"]); ("Bob", ["Yo"])].
Proof.
  destruct (extraction_of_alternating_grid
              (Demo.html_parser (Demo.page Demo.padded_grid)) Demo.decode_amp
              [(h3_of Demo.padded, div_of [p_of "Q&amp;A"; p_of " Hi "]);
               (h3_of "Bob", div_of [p_of "Yo"])])
    as (Hseg & _ & Hdoc & _); [repeat constructor|].
  destruct (extraction_of_alternating_grid
              (Demo.html_parser (Demo.page Demo.grid)) Demo.replace_charrefs
              [(h3_of "Alice", div_of [p_of "Hi"; p_of "There"]);
               (h3_of "Bob", div_of [p_of "Yo"])])
    as (Hseg' & _); [repeat constructor|].
  destruct (Hdoc "<html>" _ _ eq_refl eq_refl eq_refl) as [Hparse Hprint].
  split_and!; [exact Hseg|exact Hparse|exact Hprint|exact Hseg'].
Defined.


(** C8 at a page without the annotatable container. *)
Lemma extraction_without_containers_witness :
  parse_transcript_html (Demo.html_parser Demo.empty_page)
    Demo.replace_charrefs "<html>" = "".
Proof.
  destruct (extraction_without_containers (Demo.html_parser Demo.empty_page)
              Demo.replace_charrefs "<html>") as [Habsent _].
  apply Habsent. repeat constructor.
Defined.

(** C7 at a segment without [=], at one with two, and at a cookie string
    with a quoted value: the dictionary parsed holds the value as written,
    the jar holds it without the backslash and the quote it escapes. *)
Lemma from_cookie_string_parses_witness :
  cookie_step ∅ "malformed" = Ok ∅
  /\ cookie_step ∅ "token=a=b" = Ok {[ "token" := "a=b" ]}
  /\ jar_value "a=b" = "a=b"
  /\ (exists parsed,
        cookie_loop ∅ (PyStr.split "; "
          ("k=" +:+ DQUOTE +:+ "a" +:+ BACKSLASH +:+ DQUOTE +:+ "b" +:+ DQUOTE)) = Ok parsed
        /\ parsed = {[ "k" := DQUOTE +:+ "a" +:+ BACKSLASH +:+ DQUOTE +:+ "b" +:+ DQUOTE ]}
        /\ cookies (session (init ∅ parsed)) = {[ "k" := DQUOTE +:+ "ab" +:+ DQUOTE ]}).
Proof.
  destruct (from_cookie_string_parses ∅) as (_ & Hdrop & Hset & Hparse & Hplain & _).
  split_and!;
    [exact (Hdrop ∅ "malformed" eq_refl)|exact (Hset ∅ "token" "a=b" eq_refl)
    |exact (Hplain "a=b" eq_refl)|].
  destruct (Hparse ("k=" +:+ DQUOTE +:+ "a" +:+ BACKSLASH +:+ DQUOTE +:+ "b" +:+ DQUOTE))
    as (parsed & Hloop & _ & Hjar & _).
  exists parsed. split; [exact Hloop|].
  assert (parsed = {[ "k" := DQUOTE +:+ "a" +:+ BACKSLASH +:+ DQUOTE +:+ "b" +:+ DQUOTE ]})
    as Hp by (vm_compute in Hloop; by injection Hloop as <-).
  split; [exact Hp|]. rewrite Hjar, Hp. by vm_compute.
Defined.

(** C2 (as amended) at a sign-in page served with status 200. *)
Lemma html_body_raises_session_expired_witness :
  (_request (Demo.session_get 200 Demo.html_body) (Demo.response_json Demo.table)
     Demo.urljoin Demo.client "transcripts" ∅).2 =
  Raise (ValueError SESSION_EXPIRED).
Proof.
  exact (proj1 (html_body_raises_session_expired
                  (Demo.session_get 200 Demo.html_body)
                  (Demo.response_json Demo.table) Demo.urljoin Demo.client
                  "transcripts" ∅ {| status_code := 200; text := Demo.html_body |}
                  eq_refl eq_refl) eq_refl).
Defined.

(** C2 as stated fails: the same sign-in page served with status 500
    begins with the marker, and the call raises the [HTTPError], not the
    session-expired error. *)
Lemma html_body_with_error_status :
  looks_like_html Demo.html_body = true
  /\ PyStr.startswith Demo.html_body "<!DOCTYPE html>" = true
  /\ (_request (Demo.session_get 500 Demo.html_body) (Demo.response_json Demo.table)
        Demo.urljoin Demo.client "transcripts" ∅).2 = Raise (HTTPError 500)
  /\ (_request (Demo.session_get 500 Demo.html_body) (Demo.response_json Demo.table)
        Demo.urljoin Demo.client "transcripts" ∅).2 <> Raise (ValueError SESSION_EXPIRED).
Proof. split_and!; [reflexivity..|discriminate]. Qed.

(** C3 at a listing whose only item has no [id]. *)
Lemma missing_required_field_raises_witness :
  exists e,
    (get_transcripts (Demo.session_get 200 "broken listing")
       (Demo.response_json Demo.table) Demo.urljoin Demo.client 1 None).2 = Raise e
    /\ mapping_error e.
Proof.
  refine (proj2 (missing_required_field_raises
                   (Demo.session_get 200 "broken listing")
                   (Demo.response_json Demo.table) Demo.urljoin Demo.client 1 None
                   Demo.broken_listing [Demo.broken_item] Demo.broken_item
                   eq_refl eq_refl _ _)).
  - constructor.
  - apply Exists_cons_hd. reflexivity.
Defined.

(** C10 at an item with the required fields only. *)
Lemma missing_ticker_defaults_witness :
  exists t, transcript_of_item Demo.bare_item = Ok t
    /\ Transcript.ticker t = PyStr ""
    /\ Transcript.exchange t = PyNone
    /\ Transcript.market_cap t = PyNone.
Proof.
  destruct (missing_ticker_defaults Demo.bare_item) as (t & Ht & Htk & _ & Hex & Hmc).
  - repeat constructor; by eexists.
  - exists t. split_and!; [exact Ht|exact (Htk eq_refl)|exact (Hex eq_refl)|exact (Hmc eq_refl)].
Defined.

(** C4 at a search with two results. *)
Lemma find_company_cik_first_result_witness :
  (find_company_cik (Demo.session_get 200 "search result")
     (Demo.response_json Demo.table) Demo.urljoin Demo.int_of_str
     Demo.client "RKLB").2 = Ok (Some 1819994%Z).
Proof.
  destruct (find_company_cik_first_result (Demo.session_get 200 "search result")
              (Demo.response_json Demo.table) Demo.urljoin Demo.int_of_str
              Demo.client "RKLB") as (_ & Hfirst & _).
  exact (Hfirst _ _ eq_refl).
Defined.



(** C6 at [company_id = 0]. *)
Lemma company_filter_only_when_truthy_witness :
  transcripts_params 7 (Some 0%Z) = {[ "page" := PyInt 7 ]}.
Proof.
  destruct (company_filter_only_when_truthy
              (Demo.session_get 200 "listing") (Demo.response_json Demo.table)
              Demo.urljoin Demo.client 7 (Some 0%Z)) as (_ & _ & _ & Hfalsy & _).
  exact (Hfalsy eq_refl).
Defined.

(** * Further properties *)

(** ** Cookie strings *)

Lemma contains_app_l sub a b :
  PyStr.contains sub a = true -> PyStr.contains sub (a +:+ b) = true.
Proof.
  induction a as [|c a IH]; cbn [PyStr.contains].
  - rewrite orb_false_r. intros H.
    destruct sub; [by destruct b|done].
  - rewrite PyStrFacts.app_cons. cbn [PyStr.contains].
    intros [H|H]%orb_true_iff.
    + apply (PyStrFacts.prefix_mono _ _ b) in H. rewrite PyStrFacts.app_cons in H.
      by rewrite H.
    + by rewrite IH, orb_true_r.
Qed.

Lemma contains_app_r sub a b :
  PyStr.contains sub b = true -> PyStr.contains sub (a +:+ b) = true.
Proof.
  intros H. induction a as [|c a IH]; [done|].
  rewrite PyStrFacts.app_cons. cbn [PyStr.contains]. by rewrite IH, orb_true_r.
Qed.

Lemma contains_app_false sub a b :
  PyStr.contains sub (a +:+ b) = false ->
  PyStr.contains sub a = false /\ PyStr.contains sub b = false.
Proof.
  intros H. split.
  - destruct (PyStr.contains sub a) eqn:Ha; [|done].
    by rewrite (contains_app_l _ _ b Ha) in H.
  - destruct (PyStr.contains sub b) eqn:Hb; [|done].
    by rewrite (contains_app_r _ a _ Hb) in H.
Qed.

Lemma contains_char_app c a b :
  PyStr.contains (String c EmptyString) (a +:+ b) =
  PyStr.contains (String c EmptyString) a || PyStr.contains (String c EmptyString) b.
Proof.
  induction a as [|d a IH].
  - change (EmptyString +:+ b) with b. by destruct b.
  - rewrite PyStrFacts.app_cons. cbn [PyStr.contains].
    rewrite !PyStrFacts.prefix_cons, !PyStrFacts.prefix_nil, IH.
    by rewrite orb_assoc.
Qed.

Lemma contains_longer c sep s :
  PyStr.contains (String c EmptyString) s = false ->
  PyStr.contains (String c sep) s = false.
Proof.
  induction s as [|d s IH]; [done|]. cbn [PyStr.contains].
  rewrite !PyStrFacts.prefix_cons, PyStrFacts.prefix_nil, andb_true_r.
  intros [Hd Hs]%orb_false_iff. by rewrite Hd, IH.
Qed.

(** A field free of the separator is split off whole. *)
Lemma split_field_sep seg rest :
  PyStr.contains "; " seg = false ->
  PyStr.split "; " (seg +:+ "; " +:+ rest) = seg :: PyStr.split "; " rest.
Proof.
  induction seg as [|c seg IH]; intros Hseg.
  - apply (PyStrFacts.split_sep ";" " " rest).
  - cbn [PyStr.contains] in Hseg. apply orb_false_iff in Hseg as [Hp Hseg].
    rewrite PyStrFacts.app_cons, PyStrFacts.split_char.
    { by rewrite (IH Hseg). }
    rewrite PyStrFacts.prefix_cons in Hp |- *.
    destruct (bool_decide (";"%char = c)); [|done]. cbn [andb] in *.
    destruct seg as [|d seg]; [done|].
    rewrite PyStrFacts.app_cons.
    by rewrite PyStrFacts.prefix_cons, PyStrFacts.prefix_nil in Hp |- *.
Qed.

Lemma split_field seg :
  PyStr.contains "; " seg = false -> PyStr.split "; " seg = [seg].
Proof.
  induction seg as [|c seg IH]; intros Hseg; [done|].
  cbn [PyStr.contains] in Hseg. apply orb_false_iff in Hseg as [Hp Hseg].
  by rewrite PyStrFacts.split_char, IH.
Qed.

(** Splitting undoes joining, for fields free of the separator. *)
Lemma split_join_fields seg segs :
  Forall (fun s => PyStr.contains "; " s = false) (seg :: segs) ->
  PyStr.split "; " (PyStr.join "; " (seg :: segs)) = seg :: segs.
Proof.
  revert seg. induction segs as [|s segs IH]; intros seg [Hseg Hsegs]%Forall_cons.
  - by apply split_field.
  - rewrite PyStrFacts.join_cons, split_field_sep by done. by rewrite IH.
Qed.

Lemma cookie_loop_pairs (pairs : list (string * string)) (jar : gmap string string) :
  Forall (fun kv => PyStr.contains "=" kv.1 = false) pairs ->
  cookie_loop jar (cookie_field <$> pairs) =
  Ok (list_to_map (reverse pairs) ∪ jar).
Proof.
  intros Hpairs. revert jar.
  induction Hpairs as [|[k v] pairs Hk _ IH]; intros jar.
  - cbn. by rewrite (left_id_L ∅ (∪)).
  - cbn [fmap list_fmap cookie_loop]. rewrite cookie_step_find.
    change (cookie_field (k, v)) with (k +:+ "=" +:+ v). cbn [fst snd] in *.
    assert (PyStr.find "=" (k +:+ "=" +:+ v) = Some (k, v)) as ->
      by by apply find_eq_iff.
    cbn [mbind result_bind]. rewrite IH, reverse_cons, list_to_map_app.
    cbn [list_to_map foldr uncurry]. rewrite <- (assoc_L (∪)).
    by rewrite insert_empty, <- insert_union_singleton_l.
Qed.

(** X1: a cookie string written from a list of cookies, [name=value]
    joined by ["; "], parses back to these cookies, a later cookie of the
    same name replacing an earlier one; the jar holds each value as
    [set_cookie] stores it, so it holds the cookies themselves when no
    value starts with a double quote.  The names hold no [=] and neither
    names nor values hold a semicolon. *)
Theorem cookie_header_round_trip (default_headers : gmap string string)
    (pairs : list (string * string)) :
  Forall (fun kv => PyStr.contains "=" kv.1 = false
                    /\ PyStr.contains ";" kv.1 = false
                    /\ PyStr.contains ";" kv.2 = false) pairs ->
  exists client,
    from_cookie_string default_headers (cookie_header pairs) = Ok client
    /\ cookie_loop ∅ (PyStr.split "; " (cookie_header pairs)) =
         Ok (list_to_map (reverse pairs))
    /\ cookies (session client) = jar_value <$> list_to_map (reverse pairs)
    /\ (Forall (fun kv => PyStr.startswith kv.2 DQUOTE = false) pairs ->
        cookies (session client) = list_to_map (reverse pairs)).
Proof.
  intros Hpairs. unfold from_cookie_string, cookie_header.
  assert (cookie_loop ∅ (PyStr.split "; " (PyStr.join "; " (cookie_field <$> pairs)))
          = Ok (list_to_map (reverse pairs))) as ->.
  { destruct pairs as [|kv pairs]; [done|].
    change (cookie_field <$> kv :: pairs)
      with (cookie_field kv :: (cookie_field <$> pairs)).
    rewrite split_join_fields.
    - change (cookie_field kv :: (cookie_field <$> pairs))
        with (cookie_field <$> kv :: pairs).
      rewrite cookie_loop_pairs, (right_id_L ∅ (∪)); [done|].
      eapply Forall_impl; [exact Hpairs|]. by intros ? [? _].
    - change (cookie_field kv :: (cookie_field <$> pairs))
        with (cookie_field <$> kv :: pairs).
      apply Forall_fmap. eapply Forall_impl; [exact Hpairs|].
      intros [k v] (_ & Hk & Hv). cbn [fst snd] in *.
      apply (contains_longer ";" " "). unfold cookie_field. cbn [fst snd].
      rewrite !contains_char_app, Hk, Hv. done. }
  eexists. split; [reflexivity|]. cbn [init session cookies].
  rewrite (right_id_L ∅ (∪)). split_and!; [done..|].
  intros Hplain. apply map_eq. intros k. rewrite lookup_fmap.
  destruct (list_to_map (reverse pairs) !! k) as [v|] eqn:Hk; [|done].
  cbn [fmap option_fmap option_map]. f_equal. apply jar_value_plain.
  apply elem_of_list_to_map_2 in Hk. rewrite elem_of_reverse in Hk.
  rewrite Forall_forall in Hplain. specialize (Hplain _ Hk). cbn [snd] in Hplain.
  by rewrite Hplain.
Qed.

(** X2: whatever the cookie string, the call succeeds, and every cookie
    in the jar comes from a field [name=value] of the string, with the
    value as [set_cookie] stores it: no name holds an [=], and neither
    the name nor the value of the field holds the separator ["; "]. *)
Theorem cookie_jar_entries (default_headers : gmap string string) (s : string) :
  exists client,
    from_cookie_string default_headers s = Ok client
    /\ forall k v, cookies (session client) !! k = Some v ->
         exists v0,
           v = jar_value v0
           /\ k +:+ "=" +:+ v0 ∈ PyStr.split "; " s
           /\ PyStr.contains "=" k = false
           /\ PyStr.contains "; " k = false
           /\ PyStr.contains "; " v0 = false.
Proof.
  unfold from_cookie_string.
  destruct (cookie_loop_lookup (PyStr.split "; " s) ∅) as (jar & -> & Hjar).
  eexists. split; [reflexivity|]. intros k v. cbn [init session cookies].
  rewrite (right_id_L ∅ (∪)), lookup_fmap.
  destruct (jar !! k) as [v0|] eqn:Hk; [|done]. intros [= <-].
  apply Hjar in Hk as [(before & item & after & Hs & Hf & _)|[H _]];
    [|by rewrite lookup_empty in H].
  apply find_eq_iff in Hf as [-> Hk].
  assert (k +:+ "=" +:+ v0 ∈ PyStr.split "; " s) as Hin.
  { rewrite Hs. apply elem_of_app. right. constructor. }
  exists v0. split_and!; [done..| |].
  - pose proof (PyStrFacts.split_sep_free ";" " " s) as Hfree.
    rewrite Forall_forall in Hfree. apply Hfree in Hin.
    by apply contains_app_false in Hin as [? _].
  - pose proof (PyStrFacts.split_sep_free ";" " " s) as Hfree.
    rewrite Forall_forall in Hfree. apply Hfree in Hin.
    apply contains_app_false in Hin as [_ Hin].
    by apply contains_app_false in Hin as [_ ?].
Qed.

(** ** The client's calls *)

Lemma rmap_Forall2 {A B} (f : A -> result B) (l : list A) (ys : list B) :
  rmap f l = Ok ys <-> Forall2 (fun x y => f x = Ok y) l ys.
Proof.
  revert ys. induction l as [|x l IH]; intros ys; cbn [rmap].
  - split; [intros [= <-]; constructor|by intros ->%Forall2_nil_inv_l].
  - destruct (f x) as [y|e] eqn:Hx; cbn [mbind result_bind].
    + destruct (rmap f l) as [ys'|e] eqn:Hl; cbn [mbind result_bind].
      * split.
        -- intros [= <-]. constructor; [done|]. by apply IH.
        -- intros (y' & ys'' & Hy & Hys & ->)%Forall2_cons_inv_l.
           apply IH in Hys. congruence.
      * split; [done|].
        intros (y' & ys'' & Hy & Hys & ->)%Forall2_cons_inv_l.
        apply IH in Hys. congruence.
    + split; [done|].
      intros (y' & ys'' & Hy & Hys & ->)%Forall2_cons_inv_l. congruence.
Qed.

Lemma rmap_app_Raise {A B} (f : A -> result B) (good : list A) (bad : A)
    (rest : list A) (e : exn) :
  Forall (fun x => exists y, f x = Ok y) good ->
  f bad = Raise e ->
  rmap f (good ++ bad :: rest) = Raise e.
Proof.
  intros Hgood Hbad. induction Hgood as [|x good [y Hy] _ IH]; cbn [app rmap].
  - by rewrite Hbad.
  - by rewrite Hy, IH.
Qed.

Lemma bind_mret {A B} (c : io A) (g : A -> B) :
  (c ≫= fun a => mret (g a)) = (c.1, c.2 ≫= fun a => Ok (g a)).
Proof.
  destruct c as [tr [a|e]]; cbn [mbind io_bind result_bind mret io_ret fst snd];
    [|done].
  by rewrite (right_id_L [] (++)).
Qed.

Lemma companies_of_payload_items payload items :
  field payload "data" = Some (PyList items) ->
  companies_of_payload payload = rmap company_of_item items.
Proof.
  destruct payload as [| | | | |?|d]; try done. cbn [field].
  intros Hd. unfold companies_of_payload. cbn [get_default]. by rewrite Hd.
Qed.

Lemma company_of_item_Ok item c :
  company_of_item item = Ok c <-> maps_to_company item c.
Proof.
  unfold company_of_item, maps_to_company. destruct item as [| | | | |?|o];
    try (cbn [subscript field mbind result_bind]; split; [done|by intros [? _]]).
  cbn [subscript field get_default].
  destruct (o !! "value") as [v|]; cbn [mbind result_bind];
    [|split; [done|by intros [? _]]].
  destruct (o !! "label") as [l|]; cbn [mbind result_bind];
    [|split; [done|by intros (_ & ? & _)]].
  destruct c as [ck nm tk]. cbn [Company.cik Company.name Company.ticker].
  split; [by intros [= <- <- <-]|]. by intros ([= ->] & [= ->] & ->).
Qed.

Section ClientCalls.

Variable session_get : Session -> string -> gmap string pyval -> result Response.
Variable response_json : string -> option pyval.
Variable urljoin : string -> string -> string.
Variable int_of_str : string -> option Z.

Local Abbreviation _request := (_request session_get response_json urljoin).
Local Abbreviation get_transcripts := (get_transcripts session_get response_json urljoin).
Local Abbreviation get_company_transcripts :=
  (get_company_transcripts session_get response_json urljoin).
Local Abbreviation get_latest_transcripts :=
  (get_latest_transcripts session_get response_json urljoin).
Local Abbreviation search_company := (search_company session_get response_json urljoin).
Local Abbreviation find_company_cik :=
  (find_company_cik session_get response_json urljoin int_of_str).
Local Abbreviation py_int := (py_int int_of_str).

Lemma raise_for_status_Ok response :
  raise_for_status response = Ok tt <->
  (status_code response < 400 \/ 600 <= status_code response)%Z.
Proof.
  unfold raise_for_status.
  destruct (400 <=? status_code response)%Z eqn:H1;
    destruct (status_code response <? 600)%Z eqn:H2; cbn [andb];
    (split; [intros H|intros H; try done]); try done; lia.
Qed.

(** X3: [_request] returns a value exactly when the transport answers,
    the status is outside 400..599, the body begins with neither HTML
    marker and the body decodes; the value is then the decoded body. *)
Theorem request_returns_decoded_body self endpoint params v :
  (_request self endpoint params).2 = Ok v <->
  exists response,
    session_get (session self) (urljoin BASE_URL endpoint) params = Ok response
    /\ (status_code response < 400 \/ 600 <= status_code response)%Z
    /\ looks_like_html (text response) = false
    /\ response_json (text response) = Some v.
Proof.
  rewrite request_cases. cbn zeta.
  destruct (session_get _ _ _) as [response|e]; cbn [snd].
  - destruct (raise_for_status response) as [[]|e] eqn:Hst.
    + apply raise_for_status_Ok in Hst.
      destruct (looks_like_html (text response)) eqn:Hhtml; cbn [snd].
      * split; [done|]. intros (r & [= <-] & _ & ? & _). congruence.
      * destruct (response_json (text response)) as [v'|] eqn:Hjson.
        -- split; [intros [= <-]; eauto 6|].
           intros (r & [= <-] & _ & _ & ?). congruence.
        -- split; [done|]. intros (r & [= <-] & _ & _ & ?). congruence.
    + split; [done|]. intros (r & [= <-] & Hok & _).
      apply raise_for_status_Ok in Hok. congruence.
  - split; [done|]. by intros (r & ? & _).
Qed.

Lemma request_decodes_at_most_once self endpoint params :
  List.length (bodies_decoded (_request self endpoint params).1) <= 1.
Proof.
  rewrite request_cases. cbn zeta. repeat case_match; simpl; lia.
Qed.

Lemma get_latest_transcripts_request self limit :
  get_latest_transcripts self limit =
  let c := get_transcripts self 1 None in
  (c.1, c.2 ≫= fun r => Ok (slice_to limit (data r))).
Proof. unfold Client.get_latest_transcripts. apply bind_mret. Qed.

Lemma find_company_cik_trace self query :
  (find_company_cik self query).1 = (search_company self query).1.
Proof.
  unfold Client.find_company_cik.
  destruct (search_company self query) as [tr [[|c rest]|e]];
    cbn [mbind io_bind mret io_ret lift fst snd]; [| |done].
  - by rewrite (right_id_L [] (++)).
  - destruct (py_int (Company.cik c));
      cbn [mbind io_bind mret io_ret lift fst snd result_bind];
      first [done|by rewrite (right_id_L [] (++))|by rewrite !(right_id_L [] (++))].
Qed.

(** X4: every call of the client sends exactly one GET, whatever the
    answer and whether the call returns or raises: a search to
    [search/company], a listing to [transcripts]; [get_latest_transcripts]
    asks for page 1 without a company filter whatever the limit, and no
    call hands more than one body to the JSON decoder. *)
Theorem one_request_per_call self :
  (forall query,
      requests_sent (search_company self query).1 =
        [(urljoin BASE_URL "search/company", {["q" := PyStr query]})]
      /\ requests_sent (find_company_cik self query).1 =
        [(urljoin BASE_URL "search/company", {["q" := PyStr query]})]
      /\ List.length (bodies_decoded (find_company_cik self query).1) <= 1)
  /\ (forall cik page,
        requests_sent (get_company_transcripts self cik page).1 =
          [(urljoin BASE_URL "transcripts", transcripts_params page (Some cik))]
        /\ List.length (bodies_decoded (get_company_transcripts self cik page).1) <= 1)
  /\ (forall limit,
        requests_sent (get_latest_transcripts self limit).1 =
          [(urljoin BASE_URL "transcripts", {["page" := PyInt 1]})]
        /\ List.length (bodies_decoded (get_latest_transcripts self limit).1) <= 1).
Proof.
  split_and!.
  - intros query. rewrite find_company_cik_trace, search_company_request.
    cbn zeta. cbn [fst]. split_and!; [apply request_sends_one..|].
    apply request_decodes_at_most_once.
  - intros cik page. unfold Client.get_company_transcripts.
    rewrite get_transcripts_request. cbn zeta. cbn [fst].
    split; [apply request_sends_one|apply request_decodes_at_most_once].
  - intros limit. rewrite get_latest_transcripts_request. cbn zeta. cbn [fst].
    rewrite get_transcripts_request. cbn zeta. cbn [fst].
    split; [apply request_sends_one|apply request_decodes_at_most_once].
Qed.

Lemma transcript_of_item_fields item t :
  transcript_of_item item = Ok t -> maps_to_transcript item t.
Proof.
  unfold transcript_of_item, maps_to_transcript.
  rewrite !lookup_path_1, !lookup_path_2.
  destruct item as [| | | | |?|o]; try done. cbn [get_default].
  repeat match goal with
    | |- context [subscript ?v ?k] =>
        let H := fresh "Hsub" in
        destruct (subscript v k) eqn:H; cbn [mbind result_bind]; [|done];
        apply subscript_Ok in H; rewrite ?H
    end.
  intros [= <-]. cbn [mbind option_bind].
  cbn [Transcript.id Transcript.company_name Transcript.cik Transcript.ticker
       Transcript.year Transcript.quarter Transcript.title Transcript.date
       Transcript.transcript_url Transcript.exchange Transcript.market_cap field].
  by split_and!.
Qed.

(** X5: on a decoded search payload whose items all carry [value] and
    [label], [search_company] returns one company per item, in the
    payload's order, with [value] as cik, [label] as name and
    [tradingSymbol] as ticker, [None] where the item has none. *)
Theorem search_company_maps_in_order self query payload items :
  (_request self "search/company" {["q" := PyStr query]}).2 = Ok payload ->
  field payload "data" = Some (PyList items) ->
  Forall (fun item => is_Some (field item "value") /\ is_Some (field item "label")) items ->
  exists companies,
    (search_company self query).2 = Ok companies
    /\ Forall2 maps_to_company items companies.
Proof.
  intros Hreq Hdata Hitems. rewrite search_company_request. cbn zeta. cbn [snd].
  rewrite Hreq. cbn [mbind result_bind].
  rewrite (companies_of_payload_items _ _ Hdata).
  destruct (rmap_Ok company_of_item items) as (companies & Hmap & _).
  { eapply Forall_impl; [exact Hitems|]. intros item [[v Hv] [l Hl]].
    exists (Company.mk v l (default PyNone (field item "tradingSymbol"))).
    by apply company_of_item_Ok. }
  exists companies. split; [done|]. apply rmap_Forall2 in Hmap.
  eapply Forall2_impl; [exact Hmap|]. intros item c. by apply company_of_item_Ok.
Qed.

(** X6: a decoded search payload that is an object without [data], or
    with an empty [data], gives the empty list; a payload that is no
    object (a JSON array, string, number or null) raises
    [AttributeError]. *)
Theorem search_company_without_results self query payload :
  (_request self "search/company" {["q" := PyStr query]}).2 = Ok payload ->
  (forall d, payload = PyDict d ->
     d !! "data" = None \/ d !! "data" = Some (PyList []) ->
     (search_company self query).2 = Ok [])
  /\ ((forall d, payload <> PyDict d) ->
      (search_company self query).2 = Raise AttributeError).
Proof.
  intros Hreq. rewrite search_company_request. cbn zeta. cbn [snd].
  rewrite Hreq. cbn [mbind result_bind]. unfold companies_of_payload. split.
  - intros d -> [Hd|Hd]; cbn [get_default]; by rewrite Hd.
  - intros Hno. destruct payload; try done. by edestruct Hno.
Qed.

(** X7: the first search result that lacks [value], or has [value] and
    lacks [label], makes [search_company] raise the [KeyError] of that
    key, while a result that lacks only [tradingSymbol] maps to a company
    without ticker. *)
Theorem search_company_missing_key self query payload good bad rest :
  (_request self "search/company" {["q" := PyStr query]}).2 = Ok payload ->
  field payload "data" = Some (PyList (good ++ PyDict bad :: rest)) ->
  Forall (fun item => is_Some (field item "value") /\ is_Some (field item "label")) good ->
  (bad !! "value" = None ->
     (search_company self query).2 = Raise (KeyError "value"))
  /\ (is_Some (bad !! "value") -> bad !! "label" = None ->
      (search_company self query).2 = Raise (KeyError "label"))
  /\ (forall v l, bad !! "value" = Some v -> bad !! "label" = Some l ->
      bad !! "tradingSymbol" = None ->
      company_of_item (PyDict bad) = Ok (Company.mk v l PyNone)).
Proof.
  intros Hreq Hdata Hgood. rewrite search_company_request. cbn zeta. cbn [snd].
  rewrite Hreq. cbn [mbind result_bind].
  rewrite (companies_of_payload_items _ _ Hdata).
  assert (Forall (fun x => exists y, company_of_item x = Ok y) good) as Hok.
  { eapply Forall_impl; [exact Hgood|]. intros item [[v Hv] [l Hl]].
    exists (Company.mk v l (default PyNone (field item "tradingSymbol"))).
    by apply company_of_item_Ok. }
  split_and!.
  - intros Hv. apply rmap_app_Raise; [done|].
    unfold company_of_item. cbn [subscript]. by rewrite Hv.
  - intros [v Hv] Hl. apply rmap_app_Raise; [done|].
    unfold company_of_item. cbn [subscript]. rewrite Hv. cbn [mbind result_bind].
    by rewrite Hl.
  - intros v l Hv Hl Ht. unfold company_of_item. cbn [subscript get_default].
    by rewrite Hv, Hl, Ht.
Qed.

(** X8: on a decoded listing whose items all have the required fields,
    [get_transcripts] returns one record per item, in the payload's
    order, each holding the item's fields one for one, and the payload's
    [total]. *)
Theorem get_transcripts_maps_in_order self page company_id payload items :
  (_request self "transcripts" (transcripts_params page company_id)).2 = Ok payload ->
  field payload "data" = Some (PyList items) ->
  Forall has_required items ->
  exists r,
    (get_transcripts self page company_id).2 = Ok r
    /\ total r = default (PyInt 0) (field payload "total")
    /\ Forall2 maps_to_transcript items (data r).
Proof.
  intros Hreq Hdata Hitems. rewrite get_transcripts_request. cbn zeta. cbn [snd].
  rewrite Hreq. cbn [mbind result_bind].
  rewrite (transcripts_of_payload_items _ _ Hdata).
  destruct (rmap_Ok transcript_of_item items) as (ts & Hmap & _).
  { eapply Forall_impl; [exact Hitems|]. intros item Hitem.
    destruct (transcript_of_item_Ok item Hitem) as (t & Ht & _). eauto. }
  rewrite Hmap. cbn [mbind result_bind]. eexists. split; [reflexivity|].
  cbn [total data]. split; [done|]. apply rmap_Forall2 in Hmap.
  eapply Forall2_impl; [exact Hmap|]. intros item t. apply transcript_of_item_fields.
Qed.

(** X9: [get_transcripts] defaults what the payload leaves out at the top:
    without [data] the page is empty, and without [total] the total is 0
    however many records the page has. *)
Theorem get_transcripts_top_level_defaults self page company_id d :
  (_request self "transcripts" (transcripts_params page company_id)).2 = Ok (PyDict d) ->
  (d !! "data" = None ->
     (get_transcripts self page company_id).2 =
       Ok {| total := default (PyInt 0) (d !! "total"); data := [] |})
  /\ (forall items,
        d !! "data" = Some (PyList items) -> d !! "total" = None ->
        Forall has_required items ->
        exists r, (get_transcripts self page company_id).2 = Ok r
          /\ total r = PyInt 0
          /\ List.length (data r) = List.length items).
Proof.
  intros Hreq. rewrite get_transcripts_request. cbn zeta. cbn [snd].
  rewrite Hreq. cbn [mbind result_bind]. split.
  - intros Hd. unfold transcripts_of_payload. cbn [get_default]. by rewrite Hd.
  - intros items Hd Ht Hitems.
    rewrite (transcripts_of_payload_items (PyDict d) items Hd).
    destruct (rmap_Ok transcript_of_item items) as (ts & -> & Hlen).
    { eapply Forall_impl; [exact Hitems|]. intros item Hitem.
      destruct (transcript_of_item_Ok item Hitem) as (t & ? & _). eauto. }
    cbn [mbind result_bind field]. rewrite Ht. eauto.
Qed.

(** A string that is not empty has a first character. *)
Lemma chars_cons c s : exists x tl, PyStr.chars (String c s) = x :: tl.
Proof.
  cbn [PyStr.chars]. destruct s as [|c' s']; [by eexists _, _|].
  destruct (PyStr.is_continuation c'); [|by eexists _, _].
  destruct (PyStr.chars (String c' s')); by eexists _, _.
Qed.

(** X10: a decoded listing that is no object raises [AttributeError];
    one whose [data] is null, a number or a boolean raises [TypeError]
    (it is not iterable), and so does one whose [data] is a non-empty
    string, whose characters are taken for items. *)
Theorem get_transcripts_ill_typed_payload self page company_id payload :
  (_request self "transcripts" (transcripts_params page company_id)).2 = Ok payload ->
  ((forall d, payload <> PyDict d) ->
     (get_transcripts self page company_id).2 = Raise AttributeError)
  /\ (forall v, field payload "data" = Some v ->
        (forall l, v <> PyList l) -> (forall s, v <> PyStr s) ->
        (forall o, v <> PyDict o) ->
        (get_transcripts self page company_id).2 = Raise TypeError)
  /\ (forall c s, field payload "data" = Some (PyStr (String c s)) ->
        (get_transcripts self page company_id).2 = Raise TypeError).
Proof.
  intros Hreq. rewrite get_transcripts_request. cbn zeta. cbn [snd].
  rewrite Hreq. cbn [mbind result_bind]. unfold transcripts_of_payload. split_and!.
  - intros Hno. destruct payload; try done. by edestruct Hno.
  - intros v Hv Hl Hs Ho. destruct payload as [| | | | |?|d]; try done.
    cbn [field get_default] in *. rewrite Hv. cbn [default mbind result_bind].
    destruct v; try done; [by edestruct Hs|by edestruct Hl|by edestruct Ho].
  - intros c s Hv. destruct payload as [| | | | |?|d]; try done.
    cbn [field get_default] in *. rewrite Hv.
    cbn [default from_option id mbind result_bind py_iter].
    by destruct (chars_cons c s) as (x & tl & ->).
Qed.

(** X11: [get_company_transcripts] with CIK 0 is the unfiltered listing,
    request and result alike; with any other CIK the request carries it
    as [companyId]. *)
Theorem company_zero_is_unfiltered self page :
  get_company_transcripts self 0 page = get_transcripts self page None
  /\ forall cik, cik <> 0%Z ->
       requests_sent (get_company_transcripts self cik page).1 =
         [(urljoin BASE_URL "transcripts",
           <["companyId" := PyInt cik]> {["page" := PyInt page]})].
Proof.
  split; [done|]. intros cik Hcik. unfold Client.get_company_transcripts.
  rewrite get_transcripts_request. cbn zeta. cbn [fst].
  rewrite request_sends_one. unfold transcripts_params. cbn [truthy py_of_optional].
  by rewrite (proj2 (Z.eqb_neq cik 0) Hcik).
Qed.

(** X12: for a limit that is not negative [get_latest_transcripts]
    returns the first [limit] records of page 1, or the whole page when
    it has fewer: never more than the page holds, however large the
    limit. *)
Theorem latest_transcripts_is_a_prefix self limit r :
  (0 <= limit)%Z ->
  (get_transcripts self 1 None).2 = Ok r ->
  exists latest,
    (get_latest_transcripts self limit).2 = Ok latest
    /\ latest = take (Z.to_nat limit) (data r)
    /\ (Z.of_nat (List.length latest) <= limit)%Z
    /\ List.length latest <= List.length (data r)
    /\ ((Z.of_nat (List.length (data r)) <= limit)%Z -> latest = data r).
Proof.
  intros Hlimit Hr. rewrite get_latest_transcripts_request. cbn zeta. cbn [snd].
  rewrite Hr. cbn [mbind result_bind]. eexists. split; [reflexivity|].
  unfold slice_to. rewrite (proj2 (Z.ltb_ge limit 0) Hlimit).
  split_and!; [done|rewrite length_take; lia..|].
  intros Hall. apply take_ge. lia.
Qed.

(** X13: a negative limit is a slice from the end: the last [-limit]
    records of page 1 are dropped, and nothing is returned when the page
    has no more than that.  An exception of the listing is passed on. *)
Theorem latest_transcripts_negative_limit self limit :
  (limit < 0)%Z ->
  (forall r, (get_transcripts self 1 None).2 = Ok r ->
     (get_latest_transcripts self limit).2 =
       Ok (take (List.length (data r) - Z.to_nat (- limit)) (data r)))
  /\ (forall e, (get_transcripts self 1 None).2 = Raise e ->
        (get_latest_transcripts self limit).2 = Raise e).
Proof.
  intros Hlimit. rewrite get_latest_transcripts_request. cbn zeta. cbn [snd]. split.
  - intros r ->. cbn [mbind result_bind]. unfold slice_to.
    rewrite (proj2 (Z.ltb_lt limit 0) Hlimit). do 2 f_equal. lia.
  - by intros e ->.
Qed.

(** X14: when the first search result's cik is no integer,
    [find_company_cik] raises instead of returning [None]: [TypeError]
    for a null cik, [ValueError] for a string that is no integer literal;
    a string that is one is parsed. *)
Theorem find_company_cik_conversion self query c rest :
  (search_company self query).2 = Ok (c :: rest) ->
  (Company.cik c = PyNone -> (find_company_cik self query).2 = Raise TypeError)
  /\ (forall s, Company.cik c = PyStr s -> int_of_str s = None ->
        exists msg, (find_company_cik self query).2 = Raise (ValueError msg))
  /\ (forall s z, Company.cik c = PyStr s -> int_of_str s = Some z ->
        (find_company_cik self query).2 = Ok (Some z))
  /\ (find_company_cik self query).2 <> Ok None.
Proof.
  unfold Client.find_company_cik.
  destruct (search_company self query) as [tr r]. cbn [snd]. intros ->.
  cbn [mbind io_bind lift]. split_and!.
  - intros ->. done.
  - intros s -> Hs. cbn [Client.py_int]. rewrite Hs. cbn. eauto.
  - intros s z -> Hs. cbn [Client.py_int]. by rewrite Hs.
  - by destruct (py_int (Company.cik c)).
Qed.

End ClientCalls.

(** ** The extraction on arbitrary pages *)

Section ExtractionMore.

Variable html_parser : string -> list node.
Variable replace_charrefs : string -> string.

Local Abbreviation BeautifulSoup := (BeautifulSoup html_parser).
Local Abbreviation unescape := (unescape replace_charrefs).
Local Abbreviation paragraphs := (paragraphs replace_charrefs).
Local Abbreviation segments := (segments replace_charrefs).
Local Abbreviation parse_transcript_html :=
  (parse_transcript_html html_parser replace_charrefs).
Local Abbreviation print_transcript :=
  (print_transcript html_parser replace_charrefs).

(** X15: on every page the two scripts extract the same transcript body.
    [parse_transcript_html] returns, joined by line breaks, for each
    segment the line [[speaker]] between two line breaks and then one line
    per paragraph; [main] of [fetch_transcript.py] prints for each segment
    a line break and [[speaker]], then every paragraph followed by an
    empty line, or the one line that the content was not found when there
    is no annotatable container. *)
Theorem scripts_render_the_same_body (html_content : string) :
  let body := transcript_body html_parser replace_charrefs html_content in
  parse_transcript_html html_content =
    PyStr.join newline
      (body ≫= (fun seg => (newline +:+ "[" +:+ seg.1 +:+ "]" +:+ newline) :: seg.2))
  /\ print_transcript html_content =
     match find (BeautifulSoup html_content) "div" "r6o-annotatable" with
     | None => ["Could not find transcript content in the page"]
     | Some _ =>
         body ≫= (fun seg =>
           (newline +:+ "[" +:+ seg.1 +:+ "]")
             :: (seg.2 ≫= (fun text => [text; EmptyString])))
     end.
Proof.
  cbn zeta.
  unfold Extractor.parse_transcript_html, Extractor.print_transcript,
    transcript_body.
  destruct (find (BeautifulSoup html_content) "div" "r6o-annotatable") as [c|];
    [|done].
  destruct (find c "div" "grid") as [g|]; [|done].
  by rewrite !walk_all, render_lines, render_prints.
Qed.

Lemma segments_skip x l :
  is_named "h3" x = false -> segments (x :: l) = segments l.
Proof. intros Hx. cbn [Extractor.segments]. by rewrite Hx. Qed.

(** The recursion of [segments], two children at a time after a
    heading, as an induction principle. *)
Lemma segments_ind (P : list node -> Prop) :
  P [] ->
  (forall x l, is_named "h3" x = false -> P l -> P (x :: l)) ->
  (forall h, is_named "h3" h = true -> P [h]) ->
  (forall h x l, is_named "h3" h = true -> P l -> P (h :: x :: l)) ->
  forall l, P l.
Proof.
  intros Hnil Hskip Hlast Hpair l.
  assert (P l /\ forall x, P (x :: l)) as [? _]; [|done].
  induction l as [|y l [IH1 IH2]].
  - split; [done|]. intros x. destruct (is_named "h3" x) eqn:Hx; eauto.
  - split; [apply IH2|]. intros x. destruct (is_named "h3" x) eqn:Hx; eauto.
Qed.

(** X16: every segment comes from a heading among the children, so there
    are at most as many segments as headings; there are exactly as many
    when no heading directly follows a heading. *)
Theorem segments_and_headings (l : list node) :
  Forall (fun seg => exists h, h ∈ l /\ is_named "h3" h = true
                               /\ seg.1 = get_text_strip h) (segments l)
  /\ List.length (segments l) <= List.length (List.filter (is_named "h3") l)
  /\ (headings_apart l ->
      List.length (segments l) = List.length (List.filter (is_named "h3") l)).
Proof.
  induction l as [|x l Hx (IH1 & IH2 & IH3)|h Hh|h x l Hh (IH1 & IH2 & IH3)]
    using segments_ind.
  - by split_and!.
  - rewrite segments_skip by done. cbn [List.filter]. rewrite Hx. split_and!.
    + eapply Forall_impl; [exact IH1|]. intros seg (h & Hin & ?). exists h.
      split; [by constructor|done].
    + done.
    + intros Hapart. apply IH3. intros i a b Ha Hb. by apply (Hapart (S i)).
  - cbn [Extractor.segments List.filter]. rewrite Hh. split_and!; [|done..].
    repeat constructor. exists h. split; [constructor|done].
  - cbn [Extractor.segments List.filter]. rewrite Hh. cbn [List.length]. split_and!.
    + constructor.
      * exists h. split; [constructor|done].
      * eapply Forall_impl; [exact IH1|]. intros seg (h' & Hin & ?). exists h'.
        split; [by do 2 constructor|done].
    + destruct (is_named "h3" x); cbn [List.length]; lia.
    + intros Hapart. rewrite (Hapart 0 h x eq_refl eq_refl Hh). f_equal.
      apply IH3. intros i a b Ha Hb. by apply (Hapart (S (S i))).
Qed.

(** X17: children that stand before the first heading add nothing to the
    body, content blocks among them included: a block is only read right
    after a heading. *)
Theorem children_before_first_heading (before l : list node) :
  Forall (fun x => is_named "h3" x = false) before ->
  segments (before ++ l) = segments l
  /\ segments before = [].
Proof.
  intros Hbefore. split.
  - induction Hbefore as [|x before Hx _ IH]; [done|].
    cbn [app]. by rewrite segments_skip.
  - induction Hbefore as [|x before Hx _ IH]; [done|].
    by rewrite segments_skip.
Qed.

Lemma find_all_Tag nm cl cs name :
  find_all (Tag nm cl cs) name =
  cs ≫= fun c => ((if is_named name c then [c] else []) ++ find_all c name)%list.
Proof.
  unfold find_all. rewrite descendants_Tag.
  induction cs as [|c cs IH]; [done|].
  cbn [mbind list_bind app List.filter]. rewrite List.filter_app, IH.
  by destruct (is_named name c).
Qed.

(** X18: the paragraphs of a block are collected at every depth, in
    document order: those of each child in turn, a [p] child giving its
    own text before those of the paragraphs nested in it.  Text nodes
    and comments give none. *)
Theorem paragraphs_of_children nm cl cs :
  paragraphs (Tag nm cl cs) =
    cs ≫= (fun c => ((if is_named "p" c then [unescape (get_text c)] else [])
                      ++ paragraphs c)%list)
  /\ (forall s, paragraphs (NavigableString s) = [])
  /\ (forall s, paragraphs (Comment s) = []).
Proof.
  split; [|done]. unfold Extractor.paragraphs. rewrite find_all_Tag.
  induction cs as [|c cs IH]; [done|].
  cbn [mbind list_bind]. rewrite !fmap_app, IH. by destruct (is_named "p" c).
Qed.

End ExtractionMore.

(** ** The IPO listings *)

Lemma filing_of_item_Ok item :
  filer_is_object item ->
  exists f, ListIpos.filing_of_item item = Ok f /\ maps_to_filing item f.
Proof.
  intros (o & -> & Hfiler). unfold ListIpos.filing_of_item, maps_to_filing.
  cbn [get_default field mbind result_bind].
  destruct (o !! "filer") as [f|] eqn:Hf; cbn [default].
  - destruct (Hfiler f eq_refl) as [fo ->].
    cbn [get_default field mbind result_bind]. eexists. split; [reflexivity|].
    by split_and!.
  - cbn [get_default field mbind result_bind]. eexists. split; [reflexivity|].
    by split_and!.
Qed.

Lemma filing_of_item_Raise item e :
  ListIpos.filing_of_item item = Raise e -> e = AttributeError.
Proof.
  unfold ListIpos.filing_of_item.
  destruct item as [| | | | |?|o]; try (by intros [= <-]).
  cbn [get_default mbind result_bind].
  destruct (default (PyDict ∅) (o !! "filer")); by intros [= <-].
Qed.

Lemma rmap_Raise_first {A B} (f : A -> result B) (l : list A) (e : exn) :
  rmap f l = Raise e -> exists x, x ∈ l /\ f x = Raise e.
Proof.
  induction l as [|x l IH]; [done|]. cbn [rmap].
  destruct (f x) as [y|e'] eqn:Hx; cbn [mbind result_bind].
  - destruct (rmap f l) as [ys|e'] eqn:Hl; cbn [mbind result_bind]; [done|].
    intros [= <-]. destruct (IH eq_refl) as (x' & Hin & Hx').
    exists x'. split; [by constructor|done].
  - intros [= <-]. exists x. split; [constructor|done].
Qed.

Section Ipos.

Variable session_get : Session -> string -> gmap string pyval -> result Response.
Variable session_get_timeout :
  Session -> string -> gmap string pyval -> Z -> result Response.
Variable response_json : string -> option pyval.
Variable urljoin : string -> string -> string.
Variable py_str : pyval -> string.

Local Abbreviation _request := (_request session_get response_json urljoin).

Lemma list_ipos_request client page limit :
  ListIpos.get_latest_ipos session_get response_json urljoin client page limit =
  let c := _request client "ipos/latest"
             (<["limit" := PyInt limit]> {["page" := PyInt page]}) in
  (c.1, c.2 ≫= ListIpos.filings_of_payload).
Proof. unfold ListIpos.get_latest_ipos. apply bind_lift. Qed.

(** X19: [get_latest_ipos] of [list_ipos.py] sends [page] and [limit]
    upstream in its one GET and applies no limit of its own: on a listing
    whose items are objects (their [filer] an object or absent) it
    returns one filing per item, however many, each field taken from the
    item or defaulted, and the payload's [total] or 0. *)
Theorem list_ipos_maps_every_item client page limit payload items :
  (_request client "ipos/latest"
     (<["limit" := PyInt limit]> {["page" := PyInt page]})).2 = Ok payload ->
  field payload "data" = Some (PyList items) ->
  Forall filer_is_object items ->
  requests_sent
    (ListIpos.get_latest_ipos session_get response_json urljoin client page limit).1 =
    [(urljoin BASE_URL "ipos/latest",
      <["limit" := PyInt limit]> {["page" := PyInt page]})]
  /\ exists r,
       (ListIpos.get_latest_ipos session_get response_json urljoin client page limit).2
         = Ok r
       /\ ListIpos.total r = default (PyInt 0) (field payload "total")
       /\ List.length (ListIpos.data r) = List.length items
       /\ Forall2 maps_to_filing items (ListIpos.data r).
Proof.
  intros Hreq Hdata Hitems. rewrite list_ipos_request. cbn zeta. cbn [fst snd].
  split; [apply request_sends_one|]. rewrite Hreq. cbn [mbind result_bind].
  destruct payload as [| | | | |?|d]; try done. cbn [field] in *.
  unfold ListIpos.filings_of_payload. cbn [get_default]. rewrite Hdata.
  cbn [default from_option id py_iter mbind result_bind].
  destruct (rmap_Ok ListIpos.filing_of_item items) as (fs & Hmap & Hlen).
  { eapply Forall_impl; [exact Hitems|]. intros item Hitem.
    destruct (filing_of_item_Ok item Hitem) as (f & ? & _). eauto. }
  rewrite Hmap. cbn [mbind result_bind]. eexists. split; [reflexivity|].
  cbn [ListIpos.total ListIpos.data]. split_and!; [done..|].
  apply rmap_Forall2 in Hmap. clear Hlen Hdata. revert Hitems.
  induction Hmap as [|item f items fs Hf _ IH]; intros Hitems; [constructor|].
  apply Forall_cons in Hitems as [Hitem Hitems]. constructor; [|by apply IH].
  destruct (filing_of_item_Ok item Hitem) as (f' & Hf' & ?). congruence.
Qed.

(** X20: the only exception the mapping of [list_ipos.py] raises on the
    items of a list is [AttributeError], never a [KeyError]: it is raised
    by an item that is no object, and by an item whose [filer] is present
    and no object, null included, although an absent [filer] is
    defaulted. *)
Theorem list_ipos_attribute_error client page limit payload items :
  (_request client "ipos/latest"
     (<["limit" := PyInt limit]> {["page" := PyInt page]})).2 = Ok payload ->
  field payload "data" = Some (PyList items) ->
  (forall e,
      (ListIpos.get_latest_ipos session_get response_json urljoin client page limit).2
        = Raise e -> e = AttributeError)
  /\ (forall good o rest,
        items = (good ++ PyDict o :: rest)%list ->
        Forall filer_is_object good ->
        o !! "filer" = Some PyNone ->
        (ListIpos.get_latest_ipos session_get response_json urljoin client page limit).2
          = Raise AttributeError).
Proof.
  intros Hreq Hdata. rewrite list_ipos_request. cbn zeta. cbn [snd].
  rewrite Hreq. cbn [mbind result_bind].
  destruct payload as [| | | | |?|d]; try done. cbn [field] in *.
  unfold ListIpos.filings_of_payload. cbn [get_default]. rewrite Hdata.
  cbn [default from_option id py_iter mbind result_bind]. split.
  - intros e. destruct (rmap ListIpos.filing_of_item items) as [fs|e'] eqn:Hmap;
      cbn [mbind result_bind]; [done|]. intros [= <-].
    apply rmap_Raise_first in Hmap as (x & _ & Hx).
    by eapply filing_of_item_Raise.
  - intros good o rest -> Hgood Hfiler. rewrite (rmap_app_Raise _ _ _ _ AttributeError).
    + done.
    + eapply Forall_impl; [exact Hgood|]. intros item Hitem.
      destruct (filing_of_item_Ok item Hitem) as (f & ? & _). eauto.
    + unfold ListIpos.filing_of_item. cbn [get_default mbind result_bind].
      by rewrite Hfiler.
Qed.

Lemma ipo_filings_spec items fs :
  IpoProfiles.ipo_filings items = Ok fs ->
  List.length fs <= List.length items
  /\ Forall (fun f => exists v, f !! "is_follow_on" = Some v /\ py_truthy v = false) fs.
Proof.
  revert fs. induction items as [|item items IH]; intros fs; cbn [IpoProfiles.ipo_filings].
  - intros [= <-]. split; [done|constructor].
  - destruct item as [| | | | |?|o]; try done. cbn [get_default mbind result_bind].
    destruct (py_truthy (default (PyBool false) (o !! "isFollowOn"))) eqn:Hfo.
    + intros Hrest. destruct (IH _ Hrest) as [Hlen Hall]. split; [simpl; lia|done].
    + destruct (IpoProfiles.filing_dict (PyDict o)) as [f|e] eqn:Hf;
        cbn [mbind result_bind]; [|done].
      destruct (IpoProfiles.ipo_filings items) as [fs'|e] eqn:Hrest;
        cbn [mbind result_bind]; [|done].
      intros [= <-]. destruct (IH _ eq_refl) as [Hlen Hall].
      split; [simpl; lia|]. constructor; [|done].
      revert Hf. unfold IpoProfiles.filing_dict. cbn [get_default mbind result_bind].
      destruct (get_default (default (PyDict ∅) (o !! "filer")) "cik" PyNone);
        cbn [mbind result_bind]; [|done].
      destruct (get_default (default (PyDict ∅) (o !! "filer")) "name" (PyStr ""));
        cbn [mbind result_bind]; [|done].
      intros [= <-]. eexists. split; [|exact Hfo].
      rewrite lookup_insert_ne by done. by rewrite lookup_insert_eq.
Qed.

(** X21: [get_latest_ipos] of [fetch_ipo_profiles.py] asks for page 1
    only, without sending the limit, and whatever it returns holds
    initial filings only (every [is_follow_on] is falsy), at most [limit]
    of them for a limit that is not negative, and never more than the
    payload has items. *)
Theorem ipo_profiles_only_ipos client limit :
  requests_sent
    (IpoProfiles.get_latest_ipos session_get response_json urljoin client limit).1 =
    [(urljoin BASE_URL "ipos/latest", {["page" := PyInt 1]})]
  /\ forall filings,
       (IpoProfiles.get_latest_ipos session_get response_json urljoin client limit).2
         = Ok filings ->
       Forall (fun f => exists v, f !! "is_follow_on" = Some v /\ py_truthy v = false)
              filings
       /\ ((0 <= limit)%Z -> (Z.of_nat (List.length filings) <= limit)%Z)
       /\ forall payload items,
            (_request client "ipos/latest" {["page" := PyInt 1]}).2 = Ok payload ->
            field payload "data" = Some (PyList items) ->
            List.length filings <= List.length items.
Proof.
  unfold IpoProfiles.get_latest_ipos. rewrite bind_lift. cbn [fst snd].
  split; [apply request_sends_one|]. intros filings.
  destruct (_request client "ipos/latest" {["page" := PyInt 1]}).2 as [payload|e];
    cbn [mbind result_bind]; [|done].
  destruct (get_default payload "data" (PyList [])) as [v|e] eqn:Hv;
    cbn [mbind result_bind]; [|done].
  destruct (py_iter v) as [items|e] eqn:Hiter; cbn [mbind result_bind]; [|done].
  destruct (IpoProfiles.ipo_filings items) as [fs|e] eqn:Hfs;
    cbn [mbind result_bind]; [|done].
  intros [= <-]. apply ipo_filings_spec in Hfs as [Hlen Hall].
  assert (exists n, slice_to limit fs = take n fs) as [n Hn].
  { unfold slice_to. destruct (limit <? 0)%Z; eauto. }
  split_and!.
  - rewrite Hn. by apply Forall_take.
  - intros Hlimit. unfold slice_to. rewrite (proj2 (Z.ltb_ge limit 0) Hlimit).
    rewrite length_take. lia.
  - intros payload' items' [= <-] Hdata.
    destruct payload as [| | | | |?|d]; try done. cbn [field get_default] in *.
    rewrite Hdata in Hv. cbn [default from_option id] in Hv. injection Hv as <-.
    cbn [py_iter] in Hiter. injection Hiter as <-.
    rewrite Hn, length_take. lia.
Qed.

Lemma ticker_of_items_first_symbol (to_str : pyval -> string) cik items :
  IpoProfiles.ticker_of_items to_str cik items = first_symbol items.
Proof.
  induction items as [|item items IH]; [done|].
  cbn [IpoProfiles.ticker_of_items first_symbol].
  destruct item as [| | | | |?|o]; try done.
  cbn [get_default subscript mbind result_bind].
  destruct (o !! "tradingSymbol") as [t|] eqn:Ht; cbn [default from_option id].
  - destruct (String.eqb _ _); cbn [mbind result_bind];
      destruct (py_truthy t); cbn [mbind result_bind]; first [done|by rewrite IH].
  - destruct (String.eqb _ _); cbn [mbind result_bind py_truthy];
      first [done|by rewrite IH].
Qed.

(** X22: what [get_company_ticker] returns does not depend on the CIK
    it is given, nor on how [str] prints: the branch that matches the CIK
    returns what the fallback below it returns.  The result is the
    [tradingSymbol] of the first result that has a truthy one. *)
Theorem company_ticker_ignores_cik client name cik :
  (forall cik' py_str',
      IpoProfiles.get_company_ticker session_get_timeout response_json py_str
        client cik name =
      IpoProfiles.get_company_ticker session_get_timeout response_json py_str'
        client cik' name)
  /\ (forall response payload before o t after,
        session_get_timeout (session client) IpoProfiles.SEARCH_URL
          {["q" := PyStr name]} 10 = Ok response ->
        response_ok response = true ->
        response_json (text response) = Some payload ->
        field payload "data" = Some (PyList (before ++ PyDict o :: after)) ->
        Forall (fun item => exists d, item = PyDict d
                  /\ py_truthy (default PyNone (d !! "tradingSymbol")) = false) before ->
        o !! "tradingSymbol" = Some t -> py_truthy t = true ->
        (IpoProfiles.get_company_ticker session_get_timeout response_json py_str
           client cik name).2 = Ok (Some t)).
Proof.
  split.
  - intros cik' py_str'. unfold IpoProfiles.get_company_ticker,
      IpoProfiles.try_company_ticker. cbn zeta.
    destruct (session_get_timeout _ _ _ _) as [response|e]; cbn [mbind io_bind];
      [|done].
    destruct (response_ok response); [|done]. unfold Client.do_json.
    destruct (response_json (text response)) as [payload|];
      cbn [mbind io_bind lift]; [|done].
    destruct (get_default payload "data" (PyList [])) as [v|e];
      cbn [mbind result_bind]; [|done].
    destruct (py_iter v) as [items|e]; cbn [mbind result_bind]; [|done].
    by rewrite !ticker_of_items_first_symbol.
  - intros response payload before o t after Hget Hok Hjson Hdata Hbefore Ht Htruthy.
    unfold IpoProfiles.get_company_ticker, IpoProfiles.try_company_ticker.
    cbn zeta. rewrite Hget. cbn [mbind io_bind]. rewrite Hok.
    unfold Client.do_json. rewrite Hjson. cbn [mbind io_bind lift snd].
    destruct payload as [| | | | |?|d]; try done. cbn [field get_default] in *.
    rewrite Hdata. cbn [default from_option id py_iter mbind result_bind].
    rewrite ticker_of_items_first_symbol.
    assert (first_symbol (before ++ PyDict o :: after) = Ok (Some t)) as ->; [|done].
    clear Hdata. induction Hbefore as [|item before (d' & -> & Hd') _ IH];
      cbn [app first_symbol get_default mbind result_bind].
    + rewrite Ht. cbn [default from_option id]. by rewrite Htruthy.
    + by rewrite Hd'.
Qed.

End Ipos.

(** ** The lookup at the start of [fetch_transcript.py] *)

Section Lookup.

Variable session_get : Session -> string -> gmap string pyval -> result Response.
Variable response_json : string -> option pyval.
Variable urljoin : string -> string -> string.
Variable int_of_str : string -> option Z.
Variable default_headers : gmap string string.

Local Abbreviation find_company_cik :=
  (find_company_cik session_get response_json urljoin int_of_str).
Local Abbreviation main_lookup :=
  (FetchTranscript.main_lookup session_get response_json urljoin int_of_str
     default_headers).

Lemma truthy_false v : truthy v = false <-> v = None \/ v = Some 0%Z.
Proof.
  destruct v as [z|]; cbn [truthy].
  - rewrite negb_false_iff, Z.eqb_eq. split; [intros ->; by right|].
    by intros [|[= ->]].
  - split; [by left|done].
Qed.

Lemma find_company_cik_sends self query :
  requests_sent (find_company_cik self query).1 =
  [(urljoin BASE_URL "search/company", {["q" := PyStr query]})].
Proof.
  rewrite find_company_cik_trace, search_company_request. cbn zeta. cbn [fst].
  apply request_sends_one.
Qed.

(** X23: [main] of [fetch_transcript.py] searches for the ticker and goes
    on with the CIK found when it is not 0; only when the search finds
    nothing, or finds CIK 0, does it search again, for the company name.
    It never goes on with CIK 0: when both searches give nothing or 0 it
    prints the error line and stops.  An exception of the first search
    ends it before the second. *)
Theorem main_lookup_falls_back (COOKIES : string) :
  exists client,
    from_cookie_string default_headers COOKIES = Ok client
    /\ let first := find_company_cik client FetchTranscript.ticker in
       let second := find_company_cik client FetchTranscript.company_name in
       let run := main_lookup COOKIES in
       (forall z, first.2 = Ok (Some z) -> z <> 0%Z ->
          run = (first.1, [FetchTranscript.SEARCHING], Ok (Some z)))
       /\ (first.2 = Ok None \/ first.2 = Ok (Some 0%Z) ->
           requests_sent run.1.1 =
             [(urljoin BASE_URL "search/company", {["q" := PyStr "RKLB"]});
              (urljoin BASE_URL "search/company", {["q" := PyStr "Rocket Lab"]})]
           /\ (forall z, second.2 = Ok (Some z) -> z <> 0%Z ->
                 run.2 = Ok (Some z)
                 /\ run.1.2 = [FetchTranscript.SEARCHING; FetchTranscript.TRYING_NAME])
           /\ (second.2 = Ok None \/ second.2 = Ok (Some 0%Z) ->
                 run.2 = Ok None
                 /\ run.1.2 = [FetchTranscript.SEARCHING; FetchTranscript.TRYING_NAME;
                               FetchTranscript.NOT_FOUND]))
       /\ (forall e, first.2 = Raise e ->
             run = (first.1, [FetchTranscript.SEARCHING], Raise e))
       /\ (forall z, run.2 = Ok (Some z) -> z <> 0%Z).
Proof.
  unfold FetchTranscript.main_lookup, from_cookie_string.
  destruct (cookie_loop_lookup (PyStr.split "; " COOKIES) ∅) as (jar & -> & _).
  cbn [mbind result_bind]. exists (init default_headers jar).
  split; [done|]. cbn zeta.
  pose proof (find_company_cik_sends (init default_headers jar) FetchTranscript.ticker)
    as Hsent1.
  pose proof (find_company_cik_sends (init default_headers jar)
                FetchTranscript.company_name) as Hsent2.
  destruct (find_company_cik (init default_headers jar) FetchTranscript.ticker)
    as [tr1 r1].
  destruct (find_company_cik (init default_headers jar) FetchTranscript.company_name)
    as [tr2 r2].
  cbn [fst snd] in *.
  assert (forall z : Z, z <> 0%Z -> truthy (Some z) = true) as Htruthy.
  { intros z Hz. cbn [truthy]. by rewrite (proj2 (Z.eqb_neq z 0) Hz). }
  assert (forall v z, truthy v = true -> v = Some z -> z <> 0%Z) as Hnonzero.
  { intros v z Hv -> ->. done. }
  split_and!.
  - intros z -> Hz. by rewrite (Htruthy z Hz).
  - intros Hfirst. assert (truthy_first : exists v, r1 = Ok v /\ truthy v = false).
    { destruct Hfirst as [->| ->]; eauto. }
    destruct truthy_first as (v & -> & ->). split_and!.
    + assert (requests_sent (tr1 ++ tr2) = requests_sent tr1 ++ requests_sent tr2)%list
        as Happ by apply omap_app.
      destruct r2 as [v2|e]; [destruct (truthy v2)|]; cbn [fst snd];
        by rewrite Happ, Hsent1, Hsent2.
    + intros z -> Hz. by rewrite (Htruthy z Hz).
    + intros Hsecond. assert (truthy_second : exists v, r2 = Ok v /\ truthy v = false).
      { destruct Hsecond as [->| ->]; eauto. }
      by destruct truthy_second as (v2 & -> & ->).
  - by intros e ->.
  - intros z. destruct r1 as [v1|e1]; [|done].
    destruct (truthy v1) eqn:Hv1; cbn [snd].
    + intros [= ->]. by eapply Hnonzero.
    + destruct r2 as [v2|e2]; [|done]. destruct (truthy v2) eqn:Hv2; cbn [snd]; [|done].
      intros [= ->]. by eapply Hnonzero.
Qed.

End Lookup.

(** * The further statements at concrete inputs *)

(** X1 at three cookies, two of one name, none of them quoted. *)
Lemma cookie_header_round_trip_witness :
  exists client,
    from_cookie_string ∅ (cookie_header DemoMore.cookie_pairs) = Ok client
    /\ cookie_header DemoMore.cookie_pairs = "sessionId=abc; theme=dark; sessionId=xyz"
    /\ cookies (session client) = {[ "sessionId" := "xyz"; "theme" := "dark" ]}.
Proof.
  destruct (cookie_header_round_trip ∅ DemoMore.cookie_pairs)
    as (client & Hclient & _ & _ & Hplain); [repeat constructor|].
  exists client. split_and!; [exact Hclient|reflexivity|].
  rewrite Hplain by repeat constructor. by vm_compute.
Defined.

(** X5 at a search with two results. *)
Lemma search_company_maps_in_order_witness :
  exists companies,
    (search_company (Demo.session_get 200 "search") DemoMore.response_json
       Demo.urljoin Demo.client "rocket").2 = Ok companies
    /\ Forall2 maps_to_company DemoMore.search_items companies.
Proof.
  refine (search_company_maps_in_order (Demo.session_get 200 "search")
            DemoMore.response_json Demo.urljoin Demo.client "rocket"
            DemoMore.search_payload DemoMore.search_items eq_refl eq_refl _).
  repeat constructor; by eexists.
Defined.

(** X6 at an empty object. *)
Lemma search_company_without_results_witness :
  (search_company (Demo.session_get 200 "empty object") DemoMore.response_json
     Demo.urljoin Demo.client "rocket").2 = Ok [].
Proof.
  refine (proj1 (search_company_without_results (Demo.session_get 200 "empty object")
                   DemoMore.response_json Demo.urljoin Demo.client "rocket"
                   (PyDict ∅) eq_refl) ∅ eq_refl _).
  by left.
Defined.

(** X7 at a third result without label. *)
Lemma search_company_missing_key_witness :
  (search_company (Demo.session_get 200 "search no label") DemoMore.response_json
     Demo.urljoin Demo.client "rocket").2 = Raise (KeyError "label").
Proof.
  refine (proj1 (proj2 (search_company_missing_key
                          (Demo.session_get 200 "search no label")
                          DemoMore.response_json Demo.urljoin Demo.client "rocket"
                          DemoMore.search_no_label DemoMore.search_items
                          DemoMore.no_label [] eq_refl eq_refl _)) _ eq_refl).
  - repeat constructor; by eexists.
  - by eexists.
Defined.

(** X8 at a listing of two items. *)
Lemma get_transcripts_maps_in_order_witness :
  exists r,
    (get_transcripts (Demo.session_get 200 "listing") DemoMore.response_json
       Demo.urljoin Demo.client 1 None).2 = Ok r
    /\ total r = PyInt 2
    /\ Forall2 maps_to_transcript DemoMore.listing_items (data r).
Proof.
  refine (get_transcripts_maps_in_order (Demo.session_get 200 "listing")
            DemoMore.response_json Demo.urljoin Demo.client 1 None
            (PyDict DemoMore.listing) DemoMore.listing_items eq_refl eq_refl _).
  repeat constructor; by eexists.
Defined.

(** X9 at the same listing without its total. *)
Lemma get_transcripts_top_level_defaults_witness :
  exists r,
    (get_transcripts (Demo.session_get 200 "listing without total")
       DemoMore.response_json Demo.urljoin Demo.client 1 None).2 = Ok r
    /\ total r = PyInt 0
    /\ List.length (data r) = 2.
Proof.
  refine (proj2 (get_transcripts_top_level_defaults
                   (Demo.session_get 200 "listing without total")
                   DemoMore.response_json Demo.urljoin Demo.client 1 None
                   DemoMore.listing_without_total eq_refl)
            DemoMore.listing_items eq_refl eq_refl _).
  repeat constructor; by eexists.
Defined.

(** X10 at a listing whose data is null. *)
Lemma get_transcripts_ill_typed_payload_witness :
  (get_transcripts (Demo.session_get 200 "null data") DemoMore.response_json
     Demo.urljoin Demo.client 1 None).2 = Raise TypeError.
Proof.
  refine (proj1 (proj2 (get_transcripts_ill_typed_payload
                          (Demo.session_get 200 "null data") DemoMore.response_json
                          Demo.urljoin Demo.client 1 None DemoMore.null_data eq_refl))
            PyNone eq_refl _ _ _); discriminate.
Defined.

(** X12 at a limit of one on a page of two. *)
Lemma latest_transcripts_is_a_prefix_witness :
  exists r latest,
    (get_transcripts (Demo.session_get 200 "listing") DemoMore.response_json
       Demo.urljoin Demo.client 1 None).2 = Ok r
    /\ (get_latest_transcripts (Demo.session_get 200 "listing") DemoMore.response_json
          Demo.urljoin Demo.client 1).2 = Ok latest
    /\ latest = take 1 (data r)
    /\ List.length latest = 1.
Proof.
  eexists. 
  destruct (latest_transcripts_is_a_prefix (Demo.session_get 200 "listing")
              DemoMore.response_json Demo.urljoin Demo.client 1 _
              ltac:(done) eq_refl) as (latest & Hlatest & Heq & _).
  exists latest. split_and!; [reflexivity|exact Hlatest|exact Heq|].
  rewrite Heq. reflexivity.
Defined.

(** X13 at a limit of minus one on a page of two. *)
Lemma latest_transcripts_negative_limit_witness :
  exists latest,
    (get_latest_transcripts (Demo.session_get 200 "listing") DemoMore.response_json
       Demo.urljoin Demo.client (-1)).2 = Ok latest
    /\ List.length latest = 1.
Proof.
  eexists. split.
  - exact (proj1 (latest_transcripts_negative_limit (Demo.session_get 200 "listing")
                    DemoMore.response_json Demo.urljoin Demo.client (-1) eq_refl)
             _ eq_refl).
  - reflexivity.
Defined.

(** X14 at a first result whose cik is null. *)
Lemma find_company_cik_conversion_witness :
  (find_company_cik (Demo.session_get 200 "null cik") DemoMore.response_json
     Demo.urljoin Demo.int_of_str Demo.client "nameless").2 = Raise TypeError.
Proof.
  exact (proj1 (find_company_cik_conversion (Demo.session_get 200 "null cik")
                  DemoMore.response_json Demo.urljoin Demo.int_of_str Demo.client
                  "nameless" _ _ eq_refl) eq_refl).
Defined.

(** X15 at a grid with text nodes between its elements, and at a page
    without the annotatable container. *)
Lemma scripts_render_the_same_body_witness :
  parse_transcript_html (Demo.html_parser (Demo.page DemoMore.stray_grid))
    Demo.decode_amp "<html>" =
    PyStr.join newline
      [newline +:+ "[Alice]" +:+ newline; newline +:+ "[Bob]" +:+ newline; "Q&A"]
  /\ print_transcript (Demo.html_parser (Demo.page DemoMore.stray_grid))
       Demo.decode_amp "<html>" =
     [newline +:+ "[Alice]"; newline +:+ "[Bob]"; "Q&A"; EmptyString]
  /\ print_transcript (Demo.html_parser Demo.empty_page) Demo.decode_amp "<html>" =
     ["Could not find transcript content in the page"].
Proof.
  split_and!.
  - exact (proj1 (scripts_render_the_same_body
                    (Demo.html_parser (Demo.page DemoMore.stray_grid))
                    Demo.decode_amp "<html>")).
  - exact (proj2 (scripts_render_the_same_body
                    (Demo.html_parser (Demo.page DemoMore.stray_grid))
                    Demo.decode_amp "<html>")).
  - exact (proj2 (scripts_render_the_same_body
                    (Demo.html_parser Demo.empty_page) Demo.decode_amp "<html>")).
Defined.

(** X17 at a grid that starts with a block and a text node. *)
Lemma children_before_first_heading_witness :
  segments Demo.replace_charrefs
    (div_of [p_of "Preamble"] :: NavigableString " " :: Demo.grid) =
  segments Demo.replace_charrefs Demo.grid.
Proof.
  refine (proj1 (children_before_first_heading Demo.replace_charrefs
                   [div_of [p_of "Preamble"]; NavigableString " "] Demo.grid _)).
  by repeat constructor.
Defined.

(** X19 at a listing of two filings asked with a limit of one. *)
Lemma list_ipos_maps_every_item_witness :
  exists r,
    (ListIpos.get_latest_ipos (Demo.session_get 200 "ipos") DemoMore.response_json
       Demo.urljoin Demo.client 1 1).2 = Ok r
    /\ ListIpos.total r = PyInt 40
    /\ List.length (ListIpos.data r) = 2
    /\ Forall2 maps_to_filing DemoMore.ipo_items (ListIpos.data r).
Proof.
  refine (proj2 (list_ipos_maps_every_item (Demo.session_get 200 "ipos")
                   DemoMore.response_json Demo.urljoin Demo.client 1 1
                   DemoMore.ipo_payload DemoMore.ipo_items eq_refl eq_refl _)).
  repeat constructor; eexists; (split; [reflexivity|]); intros f [= <-]; by eexists.
Defined.

(** X20 at a filing whose filer is null. *)
Lemma list_ipos_attribute_error_witness :
  (ListIpos.get_latest_ipos (Demo.session_get 200 "ipos null filer")
     DemoMore.response_json Demo.urljoin Demo.client 1 100).2 = Raise AttributeError.
Proof.
  refine (proj2 (list_ipos_attribute_error (Demo.session_get 200 "ipos null filer")
                   DemoMore.response_json Demo.urljoin Demo.client 1 100
                   DemoMore.ipo_null_filer _ eq_refl eq_refl)
            DemoMore.ipo_items DemoMore.null_filer [] eq_refl _ eq_refl).
  repeat constructor; eexists; (split; [reflexivity|]); intros f [= <-]; by eexists.
Defined.
